(** * Cascading dependent-selection scraper: [server.js]

    A shallow embedding of the Express handler [GET /scrape-options] of
    [server.js] and of its two helpers, [waitForDropdownUpdate] (the
    Selection Driver) and [getSelectOptions] (the OptionSet reader), with
    the properties of the cascade resolution proved about them.

    The handler talks to a browser through Puppeteer.  Every Puppeteer call
    is an effect on an external world: the embedding threads a world [W]
    through the program, asks an interface [Puppeteer W] what each call
    answers, and records every call, with its answer, in an event log.
    Awaited promises that reject are JavaScript exceptions; they are the
    [Threw] outcome of the monad [M].

    Left out: the middleware (CORS, rate limit), the [/health] route, the
    contents of [getBrowserConfig] (the launch is one call that resolves or
    rejects), the unused [delay], and the [timestamp] of the error body.
    The other revisions of the file in the repository have the same helpers
    and the same guards in the dispatch, with other timeouts and other ways
    to find the browser. *)

From Stdlib Require Import String Ascii List ZArith Lia Bool Arith.
Import ListNotations.

Local Open Scope string_scope.
Local Open Scope list_scope.

(** String concatenation, as in a template literal. *)
Local Infix "+++" := String.append (right associativity, at level 60).

(* ================================================================== *)
(** ** JavaScript values *)
(* ================================================================== *)

Module Js.

(** A value of [req.query]: a key that is absent reads as [undefined], a key
    that is present reads as a string ([?makeId=] gives the empty string).
    Repeated keys and bracketed keys, which the query parser turns into
    arrays and objects, are outside the embedding. *)
Inductive value :=
| Undefined
| Str (s : string).

(** ToBoolean. *)
Definition truthy (v : value) : bool :=
  match v with
  | Undefined => false
  | Str EmptyString => false
  | Str (String _ _) => true
  end.

(** ToString, as a template literal applies it. *)
Definition to_string (v : value) : string :=
  match v with
  | Undefined => "undefined"
  | Str s => s
  end.

(** Strings are sequences of UTF-16 code units; the embedding covers the code
    units below 256.  There the white space and line terminators that
    [String.prototype.trim] strips are TAB, LF, VT, FF, CR, SP and NBSP. *)
Definition is_space (c : ascii) : bool :=
  let n := nat_of_ascii c in
  ((n =? 9) || (n =? 10) || (n =? 11) || (n =? 12) || (n =? 13)
   || (n =? 32) || (n =? 160))%nat.

Fixpoint trimStart (s : string) : string :=
  match s with
  | EmptyString => EmptyString
  | String c r => if is_space c then trimStart r else s
  end.

Fixpoint trimEnd (s : string) : string :=
  match s with
  | EmptyString => EmptyString
  | String c r =>
      match trimEnd r with
      | EmptyString => if is_space c then EmptyString else String c EmptyString
      | r' => String c r'
      end
  end.

Definition trim (s : string) : string := trimEnd (trimStart s).

(** [Array.prototype.slice(1)]. *)
Definition slice1 {A : Type} (l : list A) : list A := tl l.

End Js.

(* ================================================================== *)
(** ** The Puppeteer interface and the effect monad *)
(* ================================================================== *)

Module Pptr.

(** What an awaited call gives: a value, or a rejection carrying the
    [message] of the error. *)
Inductive Outcome (A : Type) :=
| Returned (a : A)
| Threw (message : string).
Arguments Returned {A} a.
Arguments Threw {A} message.

(** The options of [page.waitForSelector]: [{visible: true}],
    [{hidden: true}], or neither (wait for the selector to match). *)
Inductive WaitMode := Attached | Visible | Hidden.

Record Wait := mkWait {
  selector : string;
  mode : WaitMode;
  timeout : Z
}.

(** Calls that resolve to nothing of interest. *)
Inductive Action :=
| Launch                                      (* puppeteer.launch(getBrowserConfig()) *)
| NewPage                                     (* browser.newPage() *)
| SetUserAgent (ua : string)                  (* page.setUserAgent(ua) *)
| SetDefaultNavigationTimeout (ms : Z)        (* page.setDefaultNavigationTimeout(ms) *)
| Goto (url : string) (ms : Z)                (* page.goto(url, {waitUntil, timeout}) *)
| Select (sel : string) (v : Js.value)        (* page.select(sel, v) *)
| WaitForSelector (w : Wait)                  (* page.waitForSelector(sel, opts) *)
| Close.                                      (* browser.close() *)

(** Which promise of a two-promise [Promise.race] settled first. *)
Inductive Winner := First | Second.

(** One [option] element as [$$eval] sees it: [o.value], [o.textContent]. *)
Record RawOption := mkRaw {
  value : string;
  textContent : string
}.

(** The browser, as far as the program can tell: what each call answers in
    a world, and the world after it. *)
Class Puppeteer (W : Type) := {
  perform : Action -> W -> Outcome unit * W;
  race : Wait -> Wait -> W -> Outcome Winner * W;
  query : string -> W -> Outcome bool * W;          (* page.$: found or null *)
  evalAll : string -> W -> Outcome (list RawOption) * W  (* elements of page.$$eval *)
}.

Inductive Event :=
| Performed (a : Action) (r : Outcome unit)
| Raced (w1 w2 : Wait) (r : Outcome Winner)
| Queried (sel : string) (r : Outcome bool)
| Evaluated (sel : string) (r : Outcome (list RawOption))
| ConsoleError (line : string) (err : string).

(** The state of one request: the world, and the handler's variable
    [let browser], which holds a browser once [launch] has resolved. *)
Record St (W : Type) := mkSt {
  world : W;
  browser : bool
}.
Arguments mkSt {W} world browser.
Arguments world {W} s.
Arguments browser {W} s.

Definition M (W A : Type) : Type := St W -> Outcome A * St W * list Event.

Definition ret {W A} (a : A) : M W A := fun s => (Returned a, s, []).

Definition throw {W A} (message : string) : M W A :=
  fun s => (Threw message, s, []).

Definition bind {W A B} (m : M W A) (k : A -> M W B) : M W B :=
  fun s =>
    match m s with
    | (Returned a, s1, l1) =>
        match k a s1 with
        | (r, s2, l2) => (r, s2, l1 ++ l2)
        end
    | (Threw e, s1, l1) => (Threw e, s1, l1)
    end.

(** [try { m } catch (err) { h err }]. *)
Definition try_catch {W A} (m : M W A) (h : string -> M W A) : M W A :=
  fun s =>
    match m s with
    | (Returned a, s1, l1) => (Returned a, s1, l1)
    | (Threw e, s1, l1) =>
        match h e s1 with
        | (r, s2, l2) => (r, s2, l1 ++ l2)
        end
    end.

Definition act {W} `{Puppeteer W} (a : Action) : M W unit :=
  fun s =>
    match perform a (world s) with
    | (r, w) => (r, mkSt w (browser s), [Performed a r])
    end.

Definition console_error {W} (line err : string) : M W unit :=
  fun s => (Returned tt, s, [ConsoleError line err]).

End Pptr.

Import Pptr.

Declare Scope js_scope.
Delimit Scope js_scope with js.
Notation "x <- m ;; k" := (bind m (fun x => k))
  (at level 61, m at next level, right associativity) : js_scope.
Notation "m ;; k" := (bind m (fun _ => k))
  (at level 61, right associativity) : js_scope.
Local Open Scope js_scope.

(* ================================================================== *)
(** ** [server.js] *)
(* ================================================================== *)

Module Server.

(** [const { makeId, modelId, yearId, countryId, fuelId } = req.query]. *)
Record Query := mkQuery {
  makeId : Js.value;
  modelId : Js.value;
  yearId : Js.value;
  countryId : Js.value;
  fuelId : Js.value
}.

(** The objects [{ id, name }] that [getSelectOptions] builds. *)
Record SelectOption := mkOption {
  id : string;
  name : string
}.

(** The object [result]: property names with the option lists they hold,
    in insertion order. *)
Definition Obj := list (string * list SelectOption).

(** [obj[key] = v]. *)
Fixpoint set_prop (key : string) (v : list SelectOption) (obj : Obj) : Obj :=
  match obj with
  | [] => [(key, v)]
  | (k, x) :: rest =>
      if String.eqb k key then (k, v) :: rest else (k, x) :: set_prop key v rest
  end.

(** The body of the 500 response.  Its [timestamp] is the wall clock and is
    left out. *)
Record ErrorBody := mkErrorBody {
  error : string;
  details : string;
  suggestion : string
}.

(** What the client gets: [res.json(result)], [res.status(500).json(body)],
    or nothing when the handler's promise itself rejects. *)
Inductive Reply :=
| Json200 (result : Obj)
| Json500 (body : ErrorBody)
| Unanswered (message : string).

Section Handler.

Context {W : Type} `{Puppeteer W}.

(** *** The page and browser methods the file calls *)

Definition puppeteer_launch : M W unit :=
  act Launch ;;
  (fun s => (Returned tt, mkSt (world s) true, [])).   (* browser = ... *)

Definition get_browser : M W bool :=
  fun s => (Returned (browser s), s, []).

Definition browser_newPage : M W unit := act NewPage.
Definition browser_close : M W unit := act Close.
Definition page_setUserAgent (ua : string) : M W unit := act (SetUserAgent ua).
Definition page_setDefaultNavigationTimeout (ms : Z) : M W unit :=
  act (SetDefaultNavigationTimeout ms).
Definition page_goto (url : string) (ms : Z) : M W unit := act (Goto url ms).
Definition page_select (sel : string) (v : Js.value) : M W unit :=
  act (Select sel v).
Definition page_waitForSelector (sel : string) (m : WaitMode) (ms : Z) : M W unit :=
  act (WaitForSelector (mkWait sel m ms)).

(** [Promise.race([page.waitForSelector(..), page.waitForSelector(..)])]. *)
Definition Promise_race (w1 w2 : Wait) : M W Winner :=
  fun s =>
    match race w1 w2 (world s) with
    | (r, w) => (r, mkSt w (browser s), [Raced w1 w2 r])
    end.

(** [page.$(sel)]: [true] for an element handle, [false] for [null]. *)
Definition page_query (sel : string) : M W bool :=
  fun s =>
    match query sel (world s) with
    | (r, w) => (r, mkSt w (browser s), [Queried sel r])
    end.

(** [page.$$eval(sel, f)]: [f] runs in the page on the matched elements. *)
Definition page_evalAll {A} (sel : string) (f : list RawOption -> A) : M W A :=
  fun s =>
    match evalAll sel (world s) with
    | (Returned els, w) => (Returned (f els), mkSt w (browser s), [Evaluated sel (Returned els)])
    | (Threw e, w) => (Threw e, mkSt w (browser s), [Evaluated sel (Threw e)])
    end.

(** *** Helper functions *)

Definition waitForDropdownUpdate
    (triggerSelector : string) (triggerValue : Js.value) (targetSelector : string)
  : M W unit :=
  try_catch
    (page_select triggerSelector triggerValue ;;
     (* Wait for either loading indicator or enabled dropdown *)
     Promise_race
       (mkWait "#MainContent_UpdateProgress1" Visible 5000)
       (mkWait (targetSelector +++ ":not([disabled])") Attached 5000) ;;
     (* If loading appeared, wait for it to disappear *)
     found <- page_query "#MainContent_UpdateProgress1" ;;
     (if found : bool
      then page_waitForSelector "#MainContent_UpdateProgress1" Hidden 15000
      else ret tt) ;;
     (* Final verification *)
     page_waitForSelector (targetSelector +++ ":not([disabled])") Attached 15000)
    (fun err =>
       console_error
         ("Dropdown update failed from " +++ triggerSelector +++ " to "
            +++ targetSelector +++ ":") err ;;
       throw ("Failed to load " +++ targetSelector +++ " after selecting "
                +++ Js.to_string triggerValue)).

Definition getSelectOptions (selector : string) : M W (list SelectOption) :=
  page_waitForSelector (selector +++ ":not([disabled])") Attached 15000 ;;
  options <- page_evalAll (selector +++ " option") (fun options =>
      map (fun o => mkOption (value o) (Js.trim (textContent o)))
          (Js.slice1 options)) ;;
  ret options.

(** *** Main scraping endpoint *)

(** The [if] / [else if] chain of the handler, between [const result = {}]
    and [await browser.close()]. *)
Definition dispatch (q : Query) : M W Obj :=
  let makeId := makeId q in
  let modelId := modelId q in
  let yearId := yearId q in
  let countryId := countryId q in
  let fuelId := fuelId q in
  let result : Obj := [] in
  (* 1. Get MAKES *)
  if negb (Js.truthy makeId) && negb (Js.truthy modelId) && negb (Js.truthy yearId)
     && negb (Js.truthy countryId) && negb (Js.truthy fuelId) then
    makes <- getSelectOptions "#MainContent_ddlMake" ;;
    ret (set_prop "makes" makes result)
  (* 2. Get MODELS *)
  else if Js.truthy makeId && negb (Js.truthy modelId) then
    waitForDropdownUpdate "#MainContent_ddlMake" makeId "#MainContent_ddlModel" ;;
    models <- getSelectOptions "#MainContent_ddlModel" ;;
    ret (set_prop "models" models result)
  (* 3. Get YEARS *)
  else if Js.truthy makeId && Js.truthy modelId && negb (Js.truthy yearId) then
    waitForDropdownUpdate "#MainContent_ddlMake" makeId "#MainContent_ddlModel" ;;
    waitForDropdownUpdate "#MainContent_ddlModel" modelId "#MainContent_ddlYear" ;;
    years <- getSelectOptions "#MainContent_ddlYear" ;;
    ret (set_prop "years" years result)
  (* 4. Get COUNTRIES *)
  else if Js.truthy makeId && Js.truthy modelId && Js.truthy yearId
          && negb (Js.truthy countryId) then
    waitForDropdownUpdate "#MainContent_ddlMake" makeId "#MainContent_ddlModel" ;;
    waitForDropdownUpdate "#MainContent_ddlModel" modelId "#MainContent_ddlYear" ;;
    waitForDropdownUpdate "#MainContent_ddlYear" yearId "#MainContent_ddlCountry" ;;
    countries <- getSelectOptions "#MainContent_ddlCountry" ;;
    ret (set_prop "countries" countries result)
  (* 5. Get FUEL TYPES *)
  else if Js.truthy makeId && Js.truthy modelId && Js.truthy yearId
          && Js.truthy countryId && negb (Js.truthy fuelId) then
    waitForDropdownUpdate "#MainContent_ddlMake" makeId "#MainContent_ddlModel" ;;
    waitForDropdownUpdate "#MainContent_ddlModel" modelId "#MainContent_ddlYear" ;;
    waitForDropdownUpdate "#MainContent_ddlYear" yearId "#MainContent_ddlCountry" ;;
    waitForDropdownUpdate "#MainContent_ddlCountry" countryId "#MainContent_ddlFuel" ;;
    fuels <- getSelectOptions "#MainContent_ddlFuel" ;;
    ret (set_prop "fuels" fuels result)
  (* 6. Get ENGINES *)
  else
    waitForDropdownUpdate "#MainContent_ddlMake" makeId "#MainContent_ddlModel" ;;
    waitForDropdownUpdate "#MainContent_ddlModel" modelId "#MainContent_ddlYear" ;;
    waitForDropdownUpdate "#MainContent_ddlYear" yearId "#MainContent_ddlCountry" ;;
    waitForDropdownUpdate "#MainContent_ddlCountry" countryId "#MainContent_ddlFuel" ;;
    waitForDropdownUpdate "#MainContent_ddlFuel" fuelId "#MainContent_ddlEngine" ;;
    engines <- getSelectOptions "#MainContent_ddlEngine" ;;
    ret (set_prop "engines" engines result).

(** The [try] block. *)
Definition try_block (q : Query) : M W Reply :=
  puppeteer_launch ;;
  browser_newPage ;;
  page_setUserAgent
    "Mozilla/5.0 (Windows NT 10.0; Win64; x64) AppleWebKit/537.36 (KHTML, like Gecko) Chrome/117.0.0.0 Safari/537.36" ;;
  page_setDefaultNavigationTimeout 120000 ;;
  page_goto "https://umvvs.tra.go.tz/" 60000 ;;
  result <- dispatch q ;;
  browser_close ;;
  ret (Json200 result).

(** The [catch (error)] block. *)
Definition catch_block (isProduction : bool) (err : string) : M W Reply :=
  console_error "Scraping error:" err ;;
  b <- get_browser ;;
  (if b : bool then browser_close else ret tt) ;;
  ret (Json500
         (mkErrorBody "Scraping failed" err
            (if isProduction
             then "Try again later or contact support"
             else "Try running with headless: false for debugging"))).

(** [app.get('/scrape-options', async (req, res) => ...)], run in a world
    [w]: the reply, the world afterwards and the calls made. *)
Definition scrape_options (isProduction : bool) (q : Query) (w : W)
  : Reply * W * list Event :=
  match try_catch (try_block q) (catch_block isProduction) (mkSt w false) with
  | (Returned r, s, l) => (r, world s, l)
  | (Threw e, s, l) => (Unanswered e, world s, l)
  end.

End Handler.

End Server.

Import Server.

(* ================================================================== *)
(** ** The resolver as the specification words it *)
(* ================================================================== *)

Module Spec.

(** The dependency chain Make, Model, Year, Country, Fuel, Engine: the field
    of each stage and the property under which its options are returned. *)
Definition stages : list string :=
  [ "#MainContent_ddlMake"; "#MainContent_ddlModel"; "#MainContent_ddlYear";
    "#MainContent_ddlCountry"; "#MainContent_ddlFuel"; "#MainContent_ddlEngine" ].

Definition properties : list string :=
  [ "makes"; "models"; "years"; "countries"; "fuels"; "engines" ].

(** The identifiers of a request, in chain order. *)
Definition identifiers (q : Query) : list Js.value :=
  [ makeId q; modelId q; yearId q; countryId q; fuelId q ].

(** The count of contiguous, in-order, non-empty identifiers from Make. *)
Fixpoint prefix_length (ids : list Js.value) : nat :=
  match ids with
  | [] => 0
  | v :: rest => if Js.truthy v then S (prefix_length rest) else 0
  end.

Definition depth (q : Query) : nat := prefix_length (identifiers q).

(** A request is a prefix of the chain when nothing is supplied after the
    first missing identifier. *)
Definition contiguous (q : Query) : bool :=
  forallb (fun v => negb (Js.truthy v)) (skipn (depth q) (identifiers q)).

(** One driver invocation per stage: trigger field, identifier, target
    field. *)
Definition Step : Type := string * Js.value * string.

Fixpoint zip_steps (fields : list string) (ids : list Js.value) : list Step :=
  match fields, ids with
  | trigger :: ((target :: _) as rest), v :: vs =>
      (trigger, v, target) :: zip_steps rest vs
  | _, _ => []
  end.

Definition all_steps (q : Query) : list Step := zip_steps stages (identifiers q).

(** The first [depth] steps of the chain. *)
Definition steps (q : Query) : list Step := firstn (depth q) (all_steps q).

Section Resolver.

Context {W : Type} `{Puppeteer W}.

(** [for i in 1..depth: advance(stage[i], identifier[i])], each after the
    previous one has returned. *)
Fixpoint advance_all (l : list Step) : M W unit :=
  match l with
  | [] => ret tt
  | (trigger, v, target) :: rest =>
      waitForDropdownUpdate trigger v target ;; advance_all rest
  end.

(** Read the OptionSet of the stage at position [k] (from 0). *)
Definition read_stage (k : nat) : M W Obj :=
  options <- getSelectOptions (nth k stages "") ;;
  ret [(nth k properties "", options)].

(** [resolve]: walk the supplied prefix, then read stage [depth + 1]. *)
Definition resolve (q : Query) : M W Obj :=
  advance_all (steps q) ;; read_stage (depth q).

End Resolver.

End Spec.

Import Spec.

(* ================================================================== *)
(** ** A vocabulary for runs and their logs *)
(* ================================================================== *)

Module Log.

(** The [page.select] calls of a log, in order. *)
Fixpoint selections (l : list Event) : list (string * Js.value) :=
  match l with
  | [] => []
  | Performed (Select sel v) _ :: rest => (sel, v) :: selections rest
  | _ :: rest => selections rest
  end.

(** Whether an event is a call that rejected. *)
Definition rejected (e : Event) : bool :=
  match e with
  | Performed _ (Threw _) => true
  | Raced _ _ (Threw _) => true
  | Queried _ (Threw _) => true
  | Evaluated _ (Threw _) => true
  | _ => false
  end.

(** Whether an event is a call into the browser (and not a console line). *)
Definition is_call (e : Event) : bool :=
  match e with
  | ConsoleError _ _ => false
  | _ => true
  end.

(** Whether an event is a call on the page of the form: a selection, a wait,
    a race, a query or an enumeration. *)
Definition touches_form (e : Event) : bool :=
  match e with
  | Performed (Select _ _) _ => true
  | Performed (WaitForSelector _) _ => true
  | Raced _ _ _ => true
  | Queried _ _ => true
  | Evaluated _ _ => true
  | _ => false
  end.

(** Whether an event is a call only the Selection Driver makes. *)
Definition drives (e : Event) : bool :=
  match e with
  | Performed (Select _ _) _ => true
  | Raced _ _ _ => true
  | Queried _ _ => true
  | _ => false
  end.

(** The first arguments of the [console.error] calls of a log. *)
Fixpoint console_lines (l : list Event) : list string :=
  match l with
  | [] => []
  | ConsoleError line _ :: rest => line :: console_lines rest
  | _ :: rest => console_lines rest
  end.

(** The two texts of the driver's [catch] block. *)
Definition failure_line (trigger target : string) : string :=
  "Dropdown update failed from " +++ trigger +++ " to " +++ target +++ ":".

Definition failure_message (target : string) (v : Js.value) : string :=
  "Failed to load " +++ target +++ " after selecting " +++ Js.to_string v.

(** The events of the driver, by what each call answered. *)
Definition ev_select (trigger : string) (v : Js.value) (r : Outcome unit) : Event :=
  Performed (Select trigger v) r.

Definition ev_race (target : string) (r : Outcome Winner) : Event :=
  Raced (mkWait "#MainContent_UpdateProgress1" Visible 5000)
        (mkWait (target +++ ":not([disabled])") Attached 5000) r.

Definition ev_query (r : Outcome bool) : Event :=
  Queried "#MainContent_UpdateProgress1" r.

Definition ev_hidden (r : Outcome unit) : Event :=
  Performed (WaitForSelector (mkWait "#MainContent_UpdateProgress1" Hidden 15000)) r.

Definition ev_enabled (field : string) (r : Outcome unit) : Event :=
  Performed (WaitForSelector (mkWait (field +++ ":not([disabled])") Attached 15000)) r.

Definition ev_options (field : string) (r : Outcome (list RawOption)) : Event :=
  Evaluated (field +++ " option") r.

(** Every run of the driver stops at the first call that rejects: the
    ways it can go, as outcome and log. *)
Inductive advance_shape (trigger : string) (v : Js.value) (target : string)
  : Outcome unit -> list Event -> Prop :=
| stop_select e :
    advance_shape trigger v target (Threw (failure_message target v))
      [ ev_select trigger v (Threw e);
        ConsoleError (failure_line trigger target) e ]
| stop_race e :
    advance_shape trigger v target (Threw (failure_message target v))
      [ ev_select trigger v (Returned tt); ev_race target (Threw e);
        ConsoleError (failure_line trigger target) e ]
| stop_query b e :
    advance_shape trigger v target (Threw (failure_message target v))
      [ ev_select trigger v (Returned tt); ev_race target (Returned b);
        ev_query (Threw e);
        ConsoleError (failure_line trigger target) e ]
| stop_hidden b e :
    advance_shape trigger v target (Threw (failure_message target v))
      [ ev_select trigger v (Returned tt); ev_race target (Returned b);
        ev_query (Returned true); ev_hidden (Threw e);
        ConsoleError (failure_line trigger target) e ]
| stop_enabled b found e :
    advance_shape trigger v target (Threw (failure_message target v))
      ([ ev_select trigger v (Returned tt); ev_race target (Returned b);
         ev_query (Returned found) ]
       ++ (if found then [ev_hidden (Returned tt)] else [])
       ++ [ ev_enabled target (Threw e);
            ConsoleError (failure_line trigger target) e ])
| settled b found :
    advance_shape trigger v target (Returned tt)
      ([ ev_select trigger v (Returned tt); ev_race target (Returned b);
         ev_query (Returned found) ]
       ++ (if found then [ev_hidden (Returned tt)] else [])
       ++ [ ev_enabled target (Returned tt) ]).

(** The log of a driver invocation for a step, when it returned. *)
Definition settled_step (st : Step) (log : list Event) : Prop :=
  advance_shape (fst (fst st)) (snd (fst st)) (snd st) (Returned tt) log.

(** The option objects built from the raw elements. *)
Definition option_set (raw : list RawOption) : list SelectOption :=
  map (fun o => mkOption (value o) (Js.trim (textContent o))) (tl raw).

(** The ways a run of [getSelectOptions] can go. *)
Inductive read_shape (field : string)
  : Outcome (list SelectOption) -> list Event -> Prop :=
| stop_wait e :
    read_shape field (Threw e) [ ev_enabled field (Threw e) ]
| stop_eval e :
    read_shape field (Threw e)
      [ ev_enabled field (Returned tt); ev_options field (Threw e) ]
| listed raw :
    read_shape field (Returned (option_set raw))
      [ ev_enabled field (Returned tt); ev_options field (Returned raw) ].

(** The [page.select] call of a step. *)
Definition step_selection (st : Step) : string * Js.value :=
  (fst (fst st), snd (fst st)).

(** The driver invocations the handler's branch for [q] is made of: the
    supplied prefix when Make is supplied, none for the empty request, and
    the whole chain, with whatever was supplied, in the final [else]. *)
Definition plan (q : Query) : list Step :=
  if (0 <? depth q)%nat then steps q
  else if contiguous q then []
  else all_steps q.

(** The request with every empty-string identifier made absent. *)
Definition absent_if_empty (v : Js.value) : Js.value :=
  match v with
  | Js.Str EmptyString => Js.Undefined
  | _ => v
  end.

Definition normalize (q : Query) : Query :=
  mkQuery (absent_if_empty (makeId q)) (absent_if_empty (modelId q))
          (absent_if_empty (yearId q)) (absent_if_empty (countryId q))
          (absent_if_empty (fuelId q)).

(** The five guards of the handler's [if] / [else if] chain. *)
Definition guard_makes (q : Query) : bool :=
  negb (Js.truthy (makeId q)) && negb (Js.truthy (modelId q))
  && negb (Js.truthy (yearId q)) && negb (Js.truthy (countryId q))
  && negb (Js.truthy (fuelId q)).

Definition guard_models (q : Query) : bool :=
  Js.truthy (makeId q) && negb (Js.truthy (modelId q)).

Definition guard_years (q : Query) : bool :=
  Js.truthy (makeId q) && Js.truthy (modelId q) && negb (Js.truthy (yearId q)).

Definition guard_countries (q : Query) : bool :=
  Js.truthy (makeId q) && Js.truthy (modelId q) && Js.truthy (yearId q)
  && negb (Js.truthy (countryId q)).

Definition guard_fuels (q : Query) : bool :=
  Js.truthy (makeId q) && Js.truthy (modelId q) && Js.truthy (yearId q)
  && Js.truthy (countryId q) && negb (Js.truthy (fuelId q)).

(** The calls of the [try] block before the dispatch, when all resolve. *)
Definition provisioned : list Event :=
  [ Performed Launch (Returned tt);
    Performed NewPage (Returned tt);
    Performed (SetUserAgent
      "Mozilla/5.0 (Windows NT 10.0; Win64; x64) AppleWebKit/537.36 (KHTML, like Gecko) Chrome/117.0.0.0 Safari/537.36")
      (Returned tt);
    Performed (SetDefaultNavigationTimeout 120000) (Returned tt);
    Performed (Goto "https://umvvs.tra.go.tz/" 60000) (Returned tt) ].

(** The body the [catch] block sends for an error with message [e]. *)
Definition error_body (isProduction : bool) (e : string) : ErrorBody :=
  mkErrorBody "Scraping failed" e
    (if isProduction
     then "Try again later or contact support"
     else "Try running with headless: false for debugging").

(** The reply of the [catch] block, by what its [browser.close()] answers. *)
Definition reply_after_close (isProduction : bool) (e : string)
    (closed : Outcome unit) : Reply :=
  match closed with
  | Returned _ => Json500 (error_body isProduction e)
  | Threw e2 => Unanswered e2
  end.

(** Whether an event leaves the form alone. *)
Definition calm (e : Event) : bool := negb (touches_form e).

(** After the first call that rejects, nothing touches the form. *)
Fixpoint quiet_after_failure (l : list Event) : bool :=
  match l with
  | [] => true
  | e :: rest =>
      if rejected e then forallb calm rest else quiet_after_failure rest
  end.

(** [x] occurs in [s]. *)
Fixpoint names (s x : string) : bool :=
  String.prefix x s ||
  match s with
  | EmptyString => false
  | String _ r => names r x
  end.

(** Only white space. *)
Fixpoint blank (s : string) : bool :=
  match s with
  | EmptyString => true
  | String c r => Js.is_space c && blank r
  end.

Definition starts_with_space (s : string) : bool :=
  match s with
  | EmptyString => false
  | String c _ => Js.is_space c
  end.

Fixpoint ends_with_space (s : string) : bool :=
  match s with
  | EmptyString => false
  | String c EmptyString => Js.is_space c
  | String _ r => ends_with_space r
  end.

End Log.

Import Log.

(* ================================================================== *)
(** ** A browser to run the program against *)
(* ================================================================== *)

(** A deterministic stand-in for the browser, in the manner of a test double:
    the page is a function of the selections committed on it and of the
    milliseconds elapsed since the last one.  Waits follow Puppeteer's
    documented behaviour: [waitForSelector] resolves at the first instant,
    before its timeout, at which the selector is in the state asked for, and
    rejects at the timeout otherwise; [Promise.race] settles as the promise
    that settles first. *)
Module Mock.

Local Open Scope nat_scope.

(** What a selector finds: nothing, an element that is not displayed, or a
    displayed element. *)
Inductive ElemState := Missing | Concealed | Shown.

Definition Picked : Type := list (string * Js.value).

Record Site := mkSite {
  latency : nat;                                   (* ms a one-shot call takes *)
  element : Picked -> nat -> string -> ElemState;
  listing : Picked -> nat -> string -> list RawOption
}.

Record World := mkWorld {
  site : Site;
  picked : Picked;      (* selections committed, oldest first *)
  clock : nat           (* ms since the last selection *)
}.

Definition holds (m : WaitMode) (e : ElemState) : bool :=
  match m, e with
  | Attached, Missing => false
  | Attached, _ => true
  | Visible, Shown => true
  | Visible, _ => false
  | Hidden, Shown => false
  | Hidden, _ => true
  end.

(** The first instant among [from, from + 1, ..., from + span - 1] at which
    [p] holds. *)
Fixpoint first_time (p : nat -> bool) (from span : nat) : option nat :=
  match span with
  | 0 => None
  | S k => if p from then Some from else first_time p (S from) k
  end.

Definition satisfied (w : World) (x : Wait) (t : nat) : bool :=
  holds (mode x) (element (site w) (picked w) t (selector x)).

(** When a wait started now would resolve, if it does before its timeout. *)
Definition settles (w : World) (x : Wait) : option nat :=
  first_time (satisfied w x) (clock w) (Z.to_nat (timeout x)).

Definition deadline (w : World) (x : Wait) : nat :=
  clock w + Z.to_nat (timeout x).

Definition at_time (w : World) (t : nat) : World :=
  mkWorld (site w) (picked w) t.

Definition timed_out (x : Wait) : string :=
  "Waiting for selector `" +++ selector x +++ "` failed".

Definition mock_perform (a : Action) (w : World) : Outcome unit * World :=
  match a with
  | Select sel v =>
      match v with
      | Js.Undefined => (Threw "Values must be strings. Found value of type undefined", w)
      | Js.Str _ =>
          match element (site w) (picked w) (clock w) sel with
          | Missing => (Threw ("No element found for selector: " +++ sel), w)
          | _ => (Returned tt, mkWorld (site w) (picked w ++ [(sel, v)]) 0)
          end
      end
  | WaitForSelector x =>
      match settles w x with
      | Some t => (Returned tt, at_time w t)
      | None => (Threw (timed_out x), at_time w (deadline w x))
      end
  | _ => (Returned tt, w)
  end.

Definition mock_race (x y : Wait) (w : World) : Outcome Winner * World :=
  match settles w x, settles w y with
  | Some a, Some b =>
      if a <=? b then (Returned First, at_time w a) else (Returned Second, at_time w b)
  | Some a, None =>
      if a <=? deadline w y then (Returned First, at_time w a)
      else (Threw (timed_out y), at_time w (deadline w y))
  | None, Some b =>
      if deadline w x <=? b then (Threw (timed_out x), at_time w (deadline w x))
      else (Returned Second, at_time w b)
  | None, None =>
      if deadline w x <=? deadline w y
      then (Threw (timed_out x), at_time w (deadline w x))
      else (Threw (timed_out y), at_time w (deadline w y))
  end.

Definition mock_query (sel : string) (w : World) : Outcome bool * World :=
  let t := clock w + latency (site w) in
  (Returned (match element (site w) (picked w) t sel with
             | Missing => false
             | _ => true
             end), at_time w t).

Definition mock_evalAll (sel : string) (w : World)
  : Outcome (list RawOption) * World :=
  let t := clock w + latency (site w) in
  (Returned (listing (site w) (picked w) t sel), at_time w t).

#[global] Instance mock_puppeteer : Puppeteer World := {
  perform := mock_perform;
  race := mock_race;
  query := mock_query;
  evalAll := mock_evalAll
}.

(** *** A cascading form *)

(** Each field and the field that has to be chosen before it. *)
Definition links : list (string * string) :=
  [ ("#MainContent_ddlMake", "#MainContent_ddlModel");
    ("#MainContent_ddlModel", "#MainContent_ddlYear");
    ("#MainContent_ddlYear", "#MainContent_ddlCountry");
    ("#MainContent_ddlCountry", "#MainContent_ddlFuel");
    ("#MainContent_ddlFuel", "#MainContent_ddlEngine") ].

Definition was_picked (p : Picked) (sel : string) : bool :=
  existsb (fun x => String.eqb (fst x) sel) p.

(** A form whose loading indicator is in state [indicator t] at [t] ms after
    a selection, and whose fields become enabled [ready] ms after the field
    before them was chosen ([None]: never). *)
Definition form_element (indicator : nat -> ElemState) (ready : option nat)
    (p : Picked) (t : nat) (sel : string) : ElemState :=
  if String.eqb sel "#MainContent_UpdateProgress1" then indicator t
  else if existsb (String.eqb sel) stages then Shown
  else if String.eqb sel "#MainContent_ddlMake:not([disabled])" then Shown
  else
    match find (fun l => String.eqb sel (snd l +++ ":not([disabled])")) links with
    | Some (prev, _) =>
        match ready with
        | Some d => if was_picked p prev && (d <=? t) then Shown else Missing
        | None => Missing
        end
    | None => Missing
    end.

Definition catalogue : list (string * list RawOption) :=
  [ ("#MainContent_ddlMake option",
      [ mkRaw "" "-- Select Make --"; mkRaw "1" "  Toyota "; mkRaw "2" "Nissan" ]);
    ("#MainContent_ddlModel option",
      [ mkRaw "" "-- Select Model --"; mkRaw "5" " Corolla"; mkRaw "6" "Hilux  " ]);
    ("#MainContent_ddlYear option",
      [ mkRaw "" "-- Select Year --"; mkRaw "2020" "2020" ]);
    ("#MainContent_ddlCountry option",
      [ mkRaw "" "-- Select Country --"; mkRaw "TZ" "Tanzania"; mkRaw "JP" "Japan" ]);
    ("#MainContent_ddlFuel option",
      [ mkRaw "" "-- Select Fuel --"; mkRaw "PETROL" "Petrol" ]);
    ("#MainContent_ddlEngine option",
      [ mkRaw "" "-- Select Engine --"; mkRaw "1500" " 1500cc "; mkRaw "1800" "1800cc" ]) ].

Definition form_listing (p : Picked) (t : nat) (sel : string) : list RawOption :=
  match find (fun e => String.eqb sel (fst e)) catalogue with
  | Some (_, l) => l
  | None => []
  end.

Definition form (indicator : nat -> ElemState) (ready : option nat) : Site :=
  mkSite 5 (form_element indicator ready) form_listing.

(** The indicator is in the page but never displayed; fields follow after
    100 ms. *)
Definition quick_form : Site := form (fun _ => Concealed) (Some 100).


(** No indicator and no field ever follows. *)
Definition dead_form : Site := form (fun _ => Concealed) None.

(** The indicator is displayed after 20 ms and never goes away. *)
Definition hung_form : Site :=
  form (fun t => if 20 <=? t then Shown else Concealed) (Some 100).

(** The indicator is displayed from 102 ms after a selection on and never
    goes away; fields follow after 100 ms, before it. *)
Definition late_form : Site :=
  form (fun t => if 102 <=? t then Shown else Concealed) (Some 100).

Definition fresh (s : Site) : World := mkWorld s [] 0.

End Mock.

(* ================================================================== *)
(** ** Calls that fail *)
(* ================================================================== *)

(** The stand-in browser with two faults that do not come from the form:
    [page.$$eval] rejecting, as it does when the page navigates under it,
    and [browser.close()] rejecting, as it does when the connection to the
    browser is gone.  Everything else is answered as by [Mock]. *)
Module Faulty.

Import Mock.





End Faulty.

(* ================================================================== *)
(** ** More to observe in a log *)
(* ================================================================== *)

Module Obs.

Definition is_close (e : Event) : bool :=
  match e with
  | Performed Close _ => true
  | _ => false
  end.

(** An event of the dispatch: a call on the form or a console line. *)
Definition inner (e : Event) : bool := touches_form e || negb (is_call e).

(** The message of the first call of a log that rejected. *)
Fixpoint first_rejection (l : list Event) : option string :=
  match l with
  | [] => None
  | Performed _ (Threw e) :: _ => Some e
  | Raced _ _ (Threw e) :: _ => Some e
  | Queried _ (Threw e) :: _ => Some e
  | Evaluated _ (Threw e) :: _ => Some e
  | _ :: rest => first_rejection rest
  end.

(** The causes the [console.error] calls of a log were given. *)
Fixpoint console_causes (l : list Event) : list string :=
  match l with
  | [] => []
  | ConsoleError _ cause :: rest => cause :: console_causes rest
  | _ :: rest => console_causes rest
  end.

(** A browser that answers as [P] does, but names the other promise as
    the winner of every race. *)
Definition other (b : Winner) : Winner :=
  match b with
  | First => Second
  | Second => First
  end.

Definition swap_outcome (r : Outcome Winner) : Outcome Winner :=
  match r with
  | Returned b => Returned (other b)
  | Threw e => Threw e
  end.

Definition swap_event (e : Event) : Event :=
  match e with
  | Raced a b r => Raced a b (swap_outcome r)
  | _ => e
  end.

Definition swapped {W : Type} (P : Puppeteer W) : Puppeteer W := {|
  perform := @perform W P;
  race := fun a b w =>
    match @race W P a b w with
    | (r, w') => (swap_outcome r, w')
    end;
  query := @query W P;
  evalAll := @evalAll W P
|}.

(** [m'], run against the swapped browser, does what [m] does against the
    browser itself, the winners in the log apart. *)
Definition mirrors {W A : Type} (m' m : M W A) : Prop :=
  forall s,
    m' s = match m s with
           | (r, s', l) => (r, s', map swap_event l)
           end.

(** A reply with the suggestion of its error body blanked. *)
Definition without_suggestion (r : Reply) : Reply :=
  match r with
  | Json500 b => Json500 (mkErrorBody (error b) (details b) "")
  | _ => r
  end.

(** The property under which a request's options come back. *)
Definition reply_property (q : Query) : string :=
  nth (length (plan q)) properties "".

End Obs.

Import Obs.

(* ================================================================== *)
(** ** The CommonJS revision *)
(* ================================================================== *)

(** The first program of [src/unnamed/part_000]: the same handler with
    shorter waits, and with the Models branch written out in place. *)
Module Rev0.

Section Handler.

Context {W : Type} `{Puppeteer W}.

Definition waitForDropdownUpdate
    (triggerSelector : string) (triggerValue : Js.value) (targetSelector : string)
  : M W unit :=
  try_catch
    ((* 1. Trigger the change *)
     page_select triggerSelector triggerValue ;;
     (* 2. Wait for either loading indicator or enabled dropdown *)
     Promise_race
       (mkWait "#MainContent_UpdateProgress1" Visible 2000)
       (mkWait (targetSelector +++ ":not([disabled])") Attached 2000) ;;
     (* 3. If loading appeared, wait for it to disappear *)
     found <- page_query "#MainContent_UpdateProgress1" ;;
     (if found : bool
      then page_waitForSelector "#MainContent_UpdateProgress1" Hidden 10000
      else ret tt) ;;
     (* 4. Final verification *)
     page_waitForSelector (targetSelector +++ ":not([disabled])") Attached 10000)
    (fun err =>
       console_error
         ("Dropdown update failed from " +++ triggerSelector +++ " to "
            +++ targetSelector +++ ":") err ;;
       throw ("Failed to load " +++ targetSelector +++ " after selecting "
                +++ Js.to_string triggerValue)).

Definition getSelectOptions (selector : string) : M W (list SelectOption) :=
  page_waitForSelector (selector +++ ":not([disabled])") Attached 10000 ;;
  page_evalAll (selector +++ " option") (fun options =>
      map (fun o => mkOption (value o) (Js.trim (textContent o)))
          (Js.slice1 options)).

Definition dispatch (q : Query) : M W Obj :=
  let makeId := makeId q in
  let modelId := modelId q in
  let yearId := yearId q in
  let countryId := countryId q in
  let fuelId := fuelId q in
  let result : Obj := [] in
  (* 1. Get MAKES *)
  if negb (Js.truthy makeId) && negb (Js.truthy modelId) && negb (Js.truthy yearId)
     && negb (Js.truthy countryId) && negb (Js.truthy fuelId) then
    makes <- getSelectOptions "#MainContent_ddlMake" ;;
    ret (set_prop "makes" makes result)
  (* 2. Get MODELS *)
  else if Js.truthy makeId && negb (Js.truthy modelId) then
    (* Step 1: Select the make *)
    page_select "#MainContent_ddlMake" makeId ;;
    try_catch
      ((* Step 2: Wait for either the loading indicator or the model dropdown *)
       Promise_race
         (mkWait "#MainContent_UpdateProgress1" Visible 2000)
         (mkWait "#MainContent_ddlModel:not([disabled])" Attached 2000) ;;
       (* Step 3: If loading indicator appeared, wait for it to disappear *)
       found <- page_query "#MainContent_UpdateProgress1" ;;
       (if found : bool
        then page_waitForSelector "#MainContent_UpdateProgress1" Hidden 10000
        else ret tt) ;;
       (* Step 4: Verify model dropdown is now enabled *)
       page_waitForSelector "#MainContent_ddlModel:not([disabled])" Attached 10000 ;;
       models <- getSelectOptions "#MainContent_ddlModel" ;;
       ret (set_prop "models" models result))
      (fun err =>
         console_error "Model dropdown timeout:" err ;;
         throw ("Model dropdown didn't load after selecting make "
                  +++ Js.to_string makeId
                  +++ ". Site may be slow or the make ID is invalid."))
  (* 3. Get YEARS *)
  else if Js.truthy makeId && Js.truthy modelId && negb (Js.truthy yearId) then
    waitForDropdownUpdate "#MainContent_ddlMake" makeId "#MainContent_ddlModel" ;;
    waitForDropdownUpdate "#MainContent_ddlModel" modelId "#MainContent_ddlYear" ;;
    years <- getSelectOptions "#MainContent_ddlYear" ;;
    ret (set_prop "years" years result)
  (* 4. Get COUNTRIES *)
  else if Js.truthy makeId && Js.truthy modelId && Js.truthy yearId
          && negb (Js.truthy countryId) then
    waitForDropdownUpdate "#MainContent_ddlMake" makeId "#MainContent_ddlModel" ;;
    waitForDropdownUpdate "#MainContent_ddlModel" modelId "#MainContent_ddlYear" ;;
    waitForDropdownUpdate "#MainContent_ddlYear" yearId "#MainContent_ddlCountry" ;;
    countries <- getSelectOptions "#MainContent_ddlCountry" ;;
    ret (set_prop "countries" countries result)
  (* 5. Get FUEL TYPES *)
  else if Js.truthy makeId && Js.truthy modelId && Js.truthy yearId
          && Js.truthy countryId && negb (Js.truthy fuelId) then
    waitForDropdownUpdate "#MainContent_ddlMake" makeId "#MainContent_ddlModel" ;;
    waitForDropdownUpdate "#MainContent_ddlModel" modelId "#MainContent_ddlYear" ;;
    waitForDropdownUpdate "#MainContent_ddlYear" yearId "#MainContent_ddlCountry" ;;
    waitForDropdownUpdate "#MainContent_ddlCountry" countryId "#MainContent_ddlFuel" ;;
    fuels <- getSelectOptions "#MainContent_ddlFuel" ;;
    ret (set_prop "fuels" fuels result)
  (* 6. Get ENGINES *)
  else
    waitForDropdownUpdate "#MainContent_ddlMake" makeId "#MainContent_ddlModel" ;;
    waitForDropdownUpdate "#MainContent_ddlModel" modelId "#MainContent_ddlYear" ;;
    waitForDropdownUpdate "#MainContent_ddlYear" yearId "#MainContent_ddlCountry" ;;
    waitForDropdownUpdate "#MainContent_ddlCountry" countryId "#MainContent_ddlFuel" ;;
    waitForDropdownUpdate "#MainContent_ddlFuel" fuelId "#MainContent_ddlEngine" ;;
    engines <- getSelectOptions "#MainContent_ddlEngine" ;;
    ret (set_prop "engines" engines result).

End Handler.

(** The waits of this revision for those of [server.js]. *)
Definition shorter (ms : Z) : Z :=
  if (ms =? 5000)%Z then 2000%Z
  else if (ms =? 15000)%Z then 10000%Z
  else ms.

Definition retime_wait (x : Wait) : Wait :=
  mkWait (selector x) (mode x) (shorter (timeout x)).

Definition retime (e : Event) : Event :=
  match e with
  | Performed (WaitForSelector x) r => Performed (WaitForSelector (retime_wait x)) r
  | Raced x y r => Raced (retime_wait x) (retime_wait y) r
  | _ => e
  end.

(** The message of the Models branch. *)
Definition models_message (makeId : Js.value) : string :=
  "Model dropdown didn't load after selecting make " +++ Js.to_string makeId
    +++ ". Site may be slow or the make ID is invalid.".

End Rev0.

(* ================================================================== *)
(** ** Finding the browser *)
(* ================================================================== *)

(** [findChromeExecutable] of the second program of [src/unnamed/part_000].
    It runs shell commands with [execSync] and asks Puppeteer for its own
    path; what these answer is given by a host [V]. *)
Module Finder.

(** [process.env]: the two variables the function depends on. *)
Record Env := mkEnv {
  RENDER : Js.value;
  CHROME_PATH : Js.value
}.

Class Host (V : Type) := {
  execSync : string -> V -> Outcome string * V;      (* stdout, or a throw *)
  executablePath : V -> Outcome string * V           (* puppeteer.executablePath() *)
}.

Inductive Note :=
| Ran (command : string) (r : Outcome string)
| Asked (r : Outcome string)
| Logged (line : string)
| LoggedPaths (line : string) (paths : list string).

Definition Sh (V A : Type) : Type := V -> Outcome A * V * list Note.

Definition ret {V A} (a : A) : Sh V A := fun v => (Returned a, v, []).

Definition throw {V A} (message : string) : Sh V A :=
  fun v => (Threw message, v, []).

Definition bind {V A B} (m : Sh V A) (k : A -> Sh V B) : Sh V B :=
  fun v =>
    match m v with
    | (Returned a, v1, l1) =>
        match k a v1 with
        | (r, v2, l2) => (r, v2, l1 ++ l2)
        end
    | (Threw e, v1, l1) => (Threw e, v1, l1)
    end.

Definition try_catch {V A} (m : Sh V A) (h : string -> Sh V A) : Sh V A :=
  fun v =>
    match m v with
    | (Returned a, v1, l1) => (Returned a, v1, l1)
    | (Threw e, v1, l1) =>
        match h e v1 with
        | (r, v2, l2) => (r, v2, l1 ++ l2)
        end
    end.

Declare Scope sh_scope.
Notation "x <- m ;; k" := (bind m (fun x => k))
  (at level 61, m at next level, right associativity) : sh_scope.
Notation "m ;; k" := (bind m (fun _ => k))
  (at level 61, right associativity) : sh_scope.
Local Open Scope sh_scope.

(** [s.includes('*')]. *)
Fixpoint includes_star (s : string) : bool :=
  match s with
  | EmptyString => false
  | String c r => Ascii.eqb c "*" || includes_star r
  end.

(** [s.replace('*', '')]: the first star goes. *)
Fixpoint replace_star (s : string) : string :=
  match s with
  | EmptyString => EmptyString
  | String c r => if Ascii.eqb c "*" then r else String c (replace_star r)
  end.

(** A double quote. *)
Definition dq : string := String (ascii_of_nat 34) EmptyString.

Definition find_command (pathPattern : string) : string :=
  "find " +++ replace_star pathPattern +++ " -name " +++ dq +++ "chrome" +++ dq
    +++ " -type f 2>/dev/null | head -1".

Definition ls_command (pathPattern : string) : string :=
  "ls -la " +++ pathPattern.

Definition not_found : string :=
  "Could not find Chrome executable in any known location".

(** [const isRender = process.env.RENDER === 'true']. *)
Definition isRender (env : Env) : bool :=
  match RENDER env with
  | Js.Str s => String.eqb s "true"
  | Js.Undefined => false
  end.

(** [[...].filter(Boolean)], the survivors as strings. *)
Definition possiblePaths (env : Env) : list string :=
  map Js.to_string
    (filter Js.truthy
       [ Js.Str "/opt/render/.cache/puppeteer/chrome/linux-*/chrome";
         Js.Str "/usr/bin/chromium-browser";
         Js.Str "/usr/bin/google-chrome";
         Js.Str "/usr/bin/chrome";
         CHROME_PATH env ]).

Section Find.

Context {V : Type} `{Host V}.

Definition run (command : string) : Sh V string :=
  fun v =>
    match execSync command v with
    | (r, v1) => (r, v1, [Ran command r])
    end.

Definition puppeteer_executablePath : Sh V string :=
  fun v =>
    match executablePath v with
    | (r, v1) => (r, v1, [Asked r])
    end.

Definition console_log (line : string) : Sh V unit :=
  fun v => (Returned tt, v, [Logged line]).

Definition console_log_paths (line : string) (paths : list string) : Sh V unit :=
  fun v => (Returned tt, v, [LoggedPaths line paths]).

(** The [for ... of] loop: [Some p] stands for [return p] from inside the
    [try], [None] for going on to the next path. *)
Fixpoint search (paths : list string) : Sh V string :=
  match paths with
  | [] => throw not_found
  | pathPattern :: rest =>
      returned <-
        try_catch
          (if includes_star pathPattern then
             (* Use find command to locate files matching pattern *)
             out <- run (find_command pathPattern) ;;
             let foundPath := Js.trim out in
             if Js.truthy (Js.Str foundPath) then
               console_log ("Found Chrome at: " +++ foundPath) ;;
               ret (Some foundPath)
             else ret None
           else
             (* Check if specific path exists and is executable *)
             run (ls_command pathPattern) ;;
             console_log ("Found Chrome at: " +++ pathPattern) ;;
             ret (Some pathPattern))
          (fun error =>
             console_log ("Chrome not found at: " +++ pathPattern) ;;
             ret None) ;;
      match returned with
      | Some p => ret p
      | None => search rest
      end
  end.

Definition findChromeExecutable (env : Env) : Sh V string :=
  if negb (isRender env) then
    puppeteer_executablePath   (* Use default for local development *)
  else
    console_log_paths "Looking for Chrome executable at paths:" (possiblePaths env) ;;
    search (possiblePaths env).

End Find.

(** *** To state what a run did *)

(** The command a candidate is probed with. *)
Definition probe (c : string) : string :=
  if includes_star c then find_command c else ls_command c.

(** What the answer to its probe makes of a candidate. *)
Definition verdict (c : string) (r : Outcome string) : option string :=
  match r with
  | Threw _ => None
  | Returned out =>
      if includes_star c
      then if Js.truthy (Js.Str (Js.trim out)) then Some (Js.trim out) else None
      else Some c
  end.

(** The shell commands of a log, with their answers. *)
Fixpoint runs (l : list Note) : list (string * Outcome string) :=
  match l with
  | [] => []
  | Ran c r :: rest => (c, r) :: runs rest
  | _ :: rest => runs rest
  end.

(** A candidate that was probed with answer [fst cr]... and turned down. *)
Definition turned_down (c : string) (cr : string * Outcome string) : Prop :=
  fst cr = probe c /\ verdict c (snd cr) = None.

(** A stand-in host: the files that exist, and what [find] prints. *)
Record Disk := mkDisk {
  present : list string;      (* the paths [ls] finds *)
  found : string              (* what the [find ... | head -1] pipe prints *)
}.

Definition disk_exec (command : string) (d : Disk) : Outcome string * Disk :=
  if String.prefix "find " command then (Returned (found d), d)
  else if existsb (fun p => String.eqb command (ls_command p)) (present d)
       then (Returned "", d)
       else (Threw ("Command failed: " +++ command), d).

#[global] Instance disk_host : Host Disk := {
  execSync := disk_exec;
  executablePath := fun d => (Returned "/home/dev/.cache/puppeteer/chrome", d)
}.

End Finder.

(* ================================================================== *)
(** ** The Firefox revision *)
(* ================================================================== *)

(** The handler of [src/unnamed/part_001].  Its helpers and its dispatch are
    those of [server.js], word for word; its [try] block builds the launch
    configuration with [getBrowserConfig] before it launches, and its error
    body has no suggestion.  The [console.log] lines are left out. *)
Module Fx.

(** The names the file binds at its top level: its four imports and its
    [const]s.  The file is an ES module, so nothing else is in scope but
    the globals of Node. *)
Definition bound : list string :=
  [ "express"; "puppeteer"; "rateLimit"; "cors";
    "app"; "PORT"; "isProduction"; "getBrowserConfig"; "delay";
    "waitForDropdownUpdate"; "getSelectOptions" ].

Inductive Reply :=
| Json200 (result : Obj)
| Json500 (error details : string)
| Unanswered (message : string).

Section Handler.

Context {W : Type} `{Puppeteer W}.

(** Evaluating an identifier: a ReferenceError when nothing binds it. *)
Definition read (x : string) : M W unit :=
  if existsb (String.eqb x) bound then ret tt
  else throw (x +++ " is not defined").

(** [getBrowserConfig]: [if (isRender) { ... } else { ... }], either way a
    configuration for Firefox. *)
Definition getBrowserConfig : M W unit :=
  read "isRender" ;;
  ret tt.

Definition try_block (q : Query) : M W Reply :=
  getBrowserConfig ;;
  puppeteer_launch ;;
  browser_newPage ;;
  page_setUserAgent
    "Mozilla/5.0 (Windows NT 10.0; Win64; x64; rv:109.0) Gecko/20100101 Firefox/117.0" ;;
  page_setDefaultNavigationTimeout 120000 ;;
  page_goto "https://umvvs.tra.go.tz/" 60000 ;;
  result <- dispatch q ;;
  browser_close ;;
  ret (Json200 result).

Definition catch_block (err : string) : M W Reply :=
  console_error "Scraping error:" err ;;
  b <- get_browser ;;
  (if b : bool then browser_close else ret tt) ;;
  ret (Json500 "Scraping failed" err).

Definition scrape_options (q : Query) (w : W) : Reply * W * list Event :=
  match try_catch (try_block q) catch_block (mkSt w false) with
  | (Returned r, s, l) => (r, world s, l)
  | (Threw e, s, l) => (Unanswered e, world s, l)
  end.

End Handler.

End Fx.

(* ================================================================== *)
(** ** Runs of the helpers *)
(* ================================================================== *)

Lemma selections_app l1 l2 :
  selections (l1 ++ l2) = selections l1 ++ selections l2.
Proof.
  induction l1 as [|e l1 IH]; [reflexivity|].
  destruct e as [[] ?| | | |]; cbn; rewrite ?IH; reflexivity.
Qed.

Lemma console_lines_app l1 l2 :
  console_lines (l1 ++ l2) = console_lines l1 ++ console_lines l2.
Proof.
  induction l1 as [|e l1 IH]; [reflexivity|].
  destruct e; cbn; rewrite ?IH; reflexivity.
Qed.

(** What the shapes of a driver run say about its log. *)
Lemma advance_shape_log trigger v target r l :
  advance_shape trigger v target r l ->
  selections l = [(trigger, v)] /\
  match r with
  | Returned _ =>
      existsb rejected l = false /\ console_lines l = [] /\
      exists before, l = before ++ [ev_enabled target (Returned tt)]
  | Threw e =>
      e = failure_message target v /\
      existsb rejected l = true /\
      console_lines l = [failure_line trigger target]
  end.
Proof.
  intros []; try destruct found; cbn; repeat split; auto.
  - now exists [ ev_select trigger v (Returned tt); ev_race target (Returned b);
                 ev_query (Returned true); ev_hidden (Returned tt) ].
  - now exists [ ev_select trigger v (Returned tt); ev_race target (Returned b);
                 ev_query (Returned false) ].
Qed.

Lemma read_shape_log field r l :
  read_shape field r l ->
  selections l = [] /\ console_lines l = [] /\
  forallb (fun e => negb (drives e)) l = true /\
  existsb rejected l = match r with Returned _ => false | Threw _ => true end.
Proof. intros []; cbn; auto. Qed.

Section Runs.

Context {W : Type} `{Puppeteer W}.

Lemma bind_assoc {A B C} (m : M W A) (f : A -> M W B) (g : B -> M W C) s :
  bind (bind m f) g s = bind m (fun a => bind (f a) g) s.
Proof.
  unfold bind. destruct (m s) as [[[a|e] s1] l1]; [|reflexivity].
  destruct (f a s1) as [[[b|e] s2] l2]; [|reflexivity].
  destruct (g b s2) as [[r s3] l3]. now rewrite app_assoc.
Qed.

Lemma bind_ext {A B} (m : M W A) (f g : A -> M W B) s :
  (forall a s1, f a s1 = g a s1) -> bind m f s = bind m g s.
Proof.
  intros E. unfold bind. destruct (m s) as [[[a|e] s1] l1]; [|reflexivity].
  now rewrite E.
Qed.

Lemma bind_ret_l {A B} (a : A) (f : A -> M W B) s : bind (ret a) f s = f a s.
Proof.
  unfold bind, ret. now destruct (f a s) as [[r s2] l2].
Qed.

Ltac run_call :=
  match goal with
  | |- context [perform ?a ?w] => destruct (perform a w) as [[[]|?] ?] eqn:?
  | |- context [race ?a ?b ?w] => destruct (race a b w) as [[?|?] ?] eqn:?
  | |- context [query ?a ?w] => destruct (query a w) as [[[]|?] ?] eqn:?
  | |- context [evalAll ?a ?w] => destruct (evalAll a w) as [[?|?] ?] eqn:?
  end; cbn.

Lemma advance_shapes trigger v target (s : St W) r s' l :
  waitForDropdownUpdate trigger v target s = (r, s', l) ->
  advance_shape trigger v target r l /\ browser s' = browser s.
Proof.
  unfold waitForDropdownUpdate, try_catch, bind, page_select, page_waitForSelector,
    Promise_race, page_query, act, console_error, throw, ret.
  cbn.
  repeat run_call; intros E; injection E as <- <- <-; split; try reflexivity.
  - apply (settled _ _ _ _ true).
  - apply (stop_enabled _ _ _ _ true).
  - apply stop_hidden.
  - apply (settled _ _ _ _ false).
  - apply (stop_enabled _ _ _ _ false).
  - apply stop_query.
  - apply stop_race.
  - apply stop_select.
Qed.

Lemma read_shapes field (s : St W) r s' l :
  getSelectOptions field s = (r, s', l) ->
  read_shape field r l /\ browser s' = browser s.
Proof.
  unfold getSelectOptions, bind, page_waitForSelector, page_evalAll, act, ret.
  cbn.
  repeat run_call; intros E; injection E as <- <- <-; split; try reflexivity.
  - apply listed.
  - apply stop_eval.
  - apply stop_wait.
Qed.

(** A walk either returns after every step, or stops inside the first step
    whose driver call throws. *)
Lemma advance_all_run (steps : list Step) (s : St W) r s' l :
  advance_all steps s = (r, s', l) ->
  browser s' = browser s /\
  match r with
  | Returned _ =>
      selections l = map step_selection steps /\
      existsb rejected l = false /\ console_lines l = []
  | Threw e =>
      existsb rejected l = true /\
      exists n trigger v target,
        nth_error steps n = Some (trigger, v, target) /\
        selections l = map step_selection (firstn (S n) steps) /\
        e = failure_message target v /\
        console_lines l = [failure_line trigger target]
  end.
Proof.
  revert s r s' l. induction steps as [|[[trigger v] target] rest IH]; intros s r s' l.
  - cbn. unfold ret. intros E; injection E as <- <- <-. auto.
  - cbn [advance_all]. unfold bind at 1.
    destruct (waitForDropdownUpdate trigger v target s) as [[[[]|e] s1] l1] eqn:E1.
    + destruct (advance_all rest s1) as [[r2 s2] l2] eqn:E2.
      intros E; injection E as <- <- <-.
      apply advance_shapes in E1 as [S1 B1].
      apply advance_shape_log in S1 as (Sel1 & Rej1 & Con1 & _).
      apply IH in E2 as [B2 R2]. split; [congruence|].
      rewrite selections_app, existsb_app, console_lines_app, Sel1, Rej1, Con1.
      destruct r2 as [[]|e2]; cbn.
      * destruct R2 as (-> & -> & ->). auto.
      * destruct R2 as (-> & n & t2 & v2 & g2 & Hn & -> & -> & ->).
        split; [reflexivity|]. now exists (S n), t2, v2, g2.
    + intros E; injection E as <- <- <-.
      apply advance_shapes in E1 as [S1 B1].
      apply advance_shape_log in S1 as (Sel1 & -> & Rej1 & Con1).
      split; [assumption|]. split; [assumption|].
      exists 0, trigger, v, target. cbn. now rewrite Sel1.
Qed.

End Runs.

Section Plans.

Context {W : Type} `{Puppeteer W}.

(** The handler's branch for [q] is the walk of [plan q] followed by the read
    of the next stage. *)
Lemma dispatch_plan (q : Query) (s : St W) :
  dispatch q s =
  bind (advance_all (plan q)) (fun _ => read_stage (length (plan q))) s.
Proof.
  destruct q as [a b c d e].
  unfold dispatch, plan, contiguous, steps, all_steps; unfold depth, identifiers.
  cbn [makeId modelId yearId countryId fuelId prefix_length].
  destruct (Js.truthy a) eqn:Ha, (Js.truthy b) eqn:Hb, (Js.truthy c) eqn:Hc,
    (Js.truthy d) eqn:Hd, (Js.truthy e) eqn:He;
    cbn [negb andb Nat.ltb Nat.leb skipn forallb firstn zip_steps stages];
    rewrite ?Ha, ?Hb, ?Hc, ?Hd, ?He;
    cbn [negb andb advance_all length];
    rewrite ?bind_assoc; repeat (apply bind_ext; intros; rewrite ?bind_assoc);
    rewrite ?bind_ret_l; reflexivity.
Qed.

End Plans.

Section Handlers.

Context {W : Type} `{Puppeteer W}.

Ltac run_call :=
  match goal with
  | |- context [perform ?a ?w] => destruct (perform a w) as [[[]|?] ?] eqn:?
  end; cbn -[dispatch].

(** A walk followed by a read: what comes back, and what was called. *)
Lemma walk_read_run (steps : list Step) (k : nat) (s : St W) r s' l :
  bind (advance_all steps) (fun _ => read_stage k) s = (r, s', l) ->
  browser s' = browser s /\
  match r with
  | Returned result =>
      exists walk raw,
        l = walk ++ [ ev_enabled (nth k stages "") (Returned tt);
                      ev_options (nth k stages "") (Returned raw) ] /\
        selections walk = map step_selection steps /\
        existsb rejected l = false /\ console_lines l = [] /\
        result = [(nth k properties "", option_set raw)]
  | Threw e =>
      existsb rejected l = true /\
      ((exists n trigger v target,
          nth_error steps n = Some (trigger, v, target) /\
          selections l = map step_selection (firstn (S n) steps) /\
          e = failure_message target v /\
          console_lines l = [failure_line trigger target])
       \/ (selections l = map step_selection steps /\ console_lines l = []))
  end.
Proof.
  unfold bind at 1.
  destruct (advance_all steps s) as [[[[]|e] s1] l1] eqn:E1;
    apply advance_all_run in E1 as [B1 R1].
  - unfold read_stage, bind, ret.
    destruct (getSelectOptions (nth k stages "") s1) as [[[opts|e] s2] l2] eqn:E2;
      apply read_shapes in E2 as [S2 B2];
      intros E; injection E as <- <- <-; (split; [congruence|]);
      destruct R1 as (Sel1 & Rej1 & Con1);
      pose proof (read_shape_log _ _ _ S2) as (Sel2 & Con2 & _ & Rej2).
    + inversion S2; subst. exists l1, raw. rewrite app_nil_r.
      rewrite existsb_app, console_lines_app, Rej1, Con1. cbn. auto.
    + rewrite existsb_app, selections_app, console_lines_app,
        Rej1, Rej2, Sel1, Sel2, Con1, Con2, app_nil_r. cbn. auto.
  - intros E; injection E as <- <- <-. split; [assumption|].
    destruct R1 as (Rej1 & R1). auto.
Qed.

(** The handler around the dispatch: either the page is never reached, or
    the dispatch runs in a state that holds the browser and the reply follows
    from its outcome and from what [browser.close()] answers. *)
Lemma handler_run (isProduction : bool) (q : Query) (w : W) reply w' l :
  scrape_options isProduction q w = (reply, w', l) ->
  (forallb (fun e => negb (touches_form e)) l = true /\
   existsb rejected l = true /\
   (forall line, In line (console_lines l) -> line = "Scraping error:") /\
   (forall e2, reply = Unanswered e2 -> In (Performed Close (Threw e2)) l) /\
   exists e closed, reply = reply_after_close isProduction e closed)
  \/
  (exists s r s1 dl tail,
     browser s = true /\ dispatch q s = (r, s1, dl) /\
     l = provisioned ++ dl ++ tail /\
     match r with
     | Returned result =>
         (reply = Json200 result /\ tail = [Performed Close (Returned tt)])
         \/ (exists e closed,
               tail = [ Performed Close (Threw e);
                        ConsoleError "Scraping error:" e;
                        Performed Close closed ] /\
               reply = reply_after_close isProduction e closed)
     | Threw e =>
         exists closed,
           tail = [ ConsoleError "Scraping error:" e; Performed Close closed ] /\
           reply = reply_after_close isProduction e closed
     end).
Proof.
  unfold scrape_options, try_catch, try_block, catch_block, puppeteer_launch,
    browser_newPage, page_setUserAgent, page_setDefaultNavigationTimeout,
    page_goto, browser_close, get_browser, console_error.
  unfold bind, act, ret. cbn -[dispatch].
  destruct (perform Launch w) as [[[]|e0] w0] eqn:E0; cbn -[dispatch].
  2:{ intros E; injection E as <- <- <-. left. cbn.
      split; [reflexivity|]. split; [reflexivity|].
      split; [intros line [<-|[]]; reflexivity|].
      split; [discriminate|].
      now exists e0, (Returned tt). }
  do 4 (run_call;
    [ | repeat run_call; intros E; injection E as <- <- <-; left; cbn;
        (split; [reflexivity|]); (split; [reflexivity|]);
        (split; [intros line [<-|[]]; reflexivity|]);
        (split; [intros e2 Hr; try discriminate Hr; injection Hr as <-;
                 repeat first [left; reflexivity | right]|]);
        first [ eexists _, (Returned tt); reflexivity
              | exists EmptyString; eexists (Threw _); reflexivity ] ]).
  match goal with |- context [dispatch q ?s0] =>
    destruct (dispatch q s0) as [[[result|e] s1] dl] eqn:Ed;
    assert (Bs : browser s1 = true)
      by (pose proof Ed as Ed'; rewrite dispatch_plan in Ed';
          now apply walk_read_run in Ed' as [-> _]);
    cbn -[dispatch]; rewrite ?Bs
  end.
  - repeat run_call; intros E; injection E as <- <- <-; right;
      eexists _, _, _, _, _; (split; [|split; [exact Ed|]]); try reflexivity;
      (split; [cbn; rewrite <- ?app_assoc; reflexivity|]).
    + left. auto.
    + right. now exists message, (Returned tt).
    + right. now eexists message, (Threw _).
  - repeat run_call; intros E; injection E as <- <- <-; right;
      eexists _, _, _, _, _; (split; [|split; [exact Ed|]]); try reflexivity;
      (split; [cbn; rewrite <- ?app_assoc; reflexivity|]).
    + now exists (Returned tt).
    + now eexists (Threw _).
Qed.

End Handlers.

(* ================================================================== *)
(** ** [trim] and substrings *)
(* ================================================================== *)

Lemma trimStart_split s :
  exists pre, s = pre +++ Js.trimStart s /\ blank pre = true.
Proof.
  induction s as [|c r (pre & E & B)].
  - now exists EmptyString.
  - cbn. destruct (Js.is_space c) eqn:C.
    + exists (String c pre). cbn. now rewrite C, B, <- E.
    + now exists EmptyString.
Qed.

Lemma trimStart_head s : starts_with_space (Js.trimStart s) = false.
Proof.
  induction s as [|c r IH]; [reflexivity|].
  cbn. destruct (Js.is_space c) eqn:C; [assumption|]. cbn. exact C.
Qed.

Lemma trimEnd_split s :
  exists post, s = Js.trimEnd s +++ post /\ blank post = true.
Proof.
  induction s as [|c r (post & E & B)].
  - now exists EmptyString.
  - cbn. destruct (Js.trimEnd r) as [|c' r'] eqn:T.
    + cbn in E. subst post. destruct (Js.is_space c) eqn:C.
      * exists (String c r). cbn. now rewrite C, B.
      * now exists r.
    + exists post. cbn. now rewrite E at 1.
Qed.

Lemma trimEnd_tail s : ends_with_space (Js.trimEnd s) = false.
Proof.
  induction s as [|c r IH]; [reflexivity|].
  cbn. destruct (Js.trimEnd r) as [|c' r'] eqn:T.
  - destruct (Js.is_space c) eqn:C; [reflexivity|]. cbn. exact C.
  - exact IH.
Qed.

Lemma trimEnd_head s :
  starts_with_space s = false -> starts_with_space (Js.trimEnd s) = false.
Proof.
  destruct s as [|c r]; [reflexivity|].
  cbn. intros C. destruct (Js.trimEnd r); [rewrite C|]; exact C.
Qed.

(** [trim s] is [s] without the white space around it. *)
Lemma trim_split s :
  exists pre post,
    s = pre +++ Js.trim s +++ post /\ blank pre = true /\ blank post = true /\
    starts_with_space (Js.trim s) = false /\ ends_with_space (Js.trim s) = false.
Proof.
  destruct (trimStart_split s) as (pre & E1 & B1).
  destruct (trimEnd_split (Js.trimStart s)) as (post & E2 & B2).
  exists pre, post. unfold Js.trim. rewrite <- E2, <- E1.
  repeat split; auto using trimEnd_tail, trimEnd_head, trimStart_head.
Qed.

Lemma prefix_append x s : String.prefix x (x +++ s) = true.
Proof.
  induction x as [|c x IH]; cbn.
  - now destruct s.
  - destruct (ascii_dec c c); [exact IH|congruence].
Qed.

Lemma names_prefix s x : String.prefix x s = true -> names s x = true.
Proof. destruct s; cbn [names]; intros ->; reflexivity. Qed.

Lemma names_inside before x after : names (before +++ x +++ after) x = true.
Proof.
  induction before as [|c s IH].
  - change (names (x +++ after) x = true). apply names_prefix, prefix_append.
  - cbn [String.append names]. rewrite IH. apply orb_true_r.
Qed.

(* ================================================================== *)
(** ** The OptionSet reader *)
(* ================================================================== *)

Lemma option_set_nth raw i :
  nth_error (option_set raw) i =
  option_map (fun o => mkOption (value o) (Js.trim (textContent o)))
             (nth_error raw (S i)).
Proof.
  unfold option_set. destruct raw as [|r0 raw]; cbn [tl].
  - now destruct i.
  - cbn [nth_error]. apply nth_error_map.
Qed.

(** C5.  For every field, once the field is enabled and its [option]
    elements are enumerated as [raw], [getSelectOptions] returns the list
    that has, at each position [i], the element of [raw] at position [i + 1]:
    the first raw entry is dropped and the order is kept.  The [id] of each
    option is the raw value, and its [name] is the raw label without the
    white space at its two ends. *)
Theorem C5_option_set_is_raw_tail_trimmed
    {W : Type} `{Puppeteer W} (field : string) (s : St W)
    (w1 w2 : W) (raw : list RawOption) :
  perform (WaitForSelector (mkWait (field +++ ":not([disabled])") Attached 15000))
          (world s) = (Returned tt, w1) ->
  evalAll (field +++ " option") w1 = (Returned raw, w2) ->
  exists opts,
    getSelectOptions field s =
      (Returned opts, mkSt w2 (browser s),
       [ev_enabled field (Returned tt); ev_options field (Returned raw)]) /\
    length opts = length raw - 1 /\
    (forall i,
       nth_error opts i =
       option_map (fun o => mkOption (value o) (Js.trim (textContent o)))
                  (nth_error raw (S i))) /\
    (forall i o,
       nth_error opts i = Some o ->
       exists r pre post,
         nth_error raw (S i) = Some r /\
         id o = value r /\
         textContent r = pre +++ name o +++ post /\
         blank pre = true /\ blank post = true /\
         starts_with_space (name o) = false /\
         ends_with_space (name o) = false).
Proof.
  intros Hwait Heval. exists (option_set raw). split; [|split; [|split]].
  - unfold getSelectOptions, bind, page_waitForSelector, page_evalAll, act, ret.
    cbn. rewrite Hwait. cbn. rewrite Heval. reflexivity.
  - unfold option_set. rewrite length_map.
    destruct raw; cbn; [reflexivity | now rewrite Nat.sub_0_r].
  - apply option_set_nth.
  - intros i o Hi. rewrite option_set_nth in Hi.
    destruct (nth_error raw (S i)) as [r|]; [|discriminate].
    injection Hi as <-. cbn [id name].
    destruct (trim_split (textContent r)) as (pre & post & E & Bpre & Bpost & Hd & Tl).
    exists r, pre, post. auto 10.
Qed.

Lemma C5_witness :
  exists opts,
    fst (fst (getSelectOptions "#MainContent_ddlMake"
                (mkSt (Mock.fresh Mock.quick_form) true))) = Returned opts /\
    length opts = 2.
Proof.
  destruct (C5_option_set_is_raw_tail_trimmed "#MainContent_ddlMake"
              (mkSt (Mock.fresh Mock.quick_form) true)
              (Mock.mkWorld Mock.quick_form [] 0)
              (Mock.mkWorld Mock.quick_form [] 5)
              [ mkRaw "" "-- Select Make --"; mkRaw "1" "  Toyota ";
                mkRaw "2" "Nissan" ])
    as (opts & E & L & _).
  - vm_compute. reflexivity.
  - vm_compute. reflexivity.
  - exists opts. rewrite E. split; [reflexivity|exact L].
Defined.

(* ================================================================== *)
(** ** The Selection Driver *)
(* ================================================================== *)

(** When every call resolves, the driver returns. *)
Lemma advance_settles {W : Type} `{Puppeteer W}
    trigger v target (s : St W) w1 w2 w3 w4 w5 b (found : bool) :
  perform (Select trigger v) (world s) = (Returned tt, w1) ->
  race (mkWait "#MainContent_UpdateProgress1" Visible 5000)
       (mkWait (target +++ ":not([disabled])") Attached 5000) w1
    = (Returned b, w2) ->
  query "#MainContent_UpdateProgress1" w2 = (Returned found, w3) ->
  (if found
   then perform (WaitForSelector (mkWait "#MainContent_UpdateProgress1" Hidden 15000)) w3
        = (Returned tt, w4)
   else w4 = w3) ->
  perform (WaitForSelector (mkWait (target +++ ":not([disabled])") Attached 15000)) w4
    = (Returned tt, w5) ->
  waitForDropdownUpdate trigger v target s =
    (Returned tt, mkSt w5 (browser s),
     [ ev_select trigger v (Returned tt); ev_race target (Returned b);
       ev_query (Returned found) ]
     ++ (if found then [ev_hidden (Returned tt)] else [])
     ++ [ ev_enabled target (Returned tt) ]).
Proof.
  intros E1 E2 E3 E4 E5.
  unfold waitForDropdownUpdate, try_catch, bind, page_select, page_waitForSelector,
    Promise_race, page_query, act, console_error, throw, ret.
  cbn. rewrite E1. cbn. rewrite E2. cbn. rewrite E3. cbn.
  destruct found; cbn.
  - rewrite E4. cbn. rewrite E5. reflexivity.
  - subst w4. rewrite E5. reflexivity.
Qed.

Section Clock.

Import Mock.

Lemma first_time_now p from span :
  p from = true -> 0 < span -> first_time p from span = Some from.
Proof.
  intros P S. destruct span; [lia|]. cbn. now rewrite P.
Qed.

Lemma first_time_none p from span :
  (forall u, from <= u < from + span -> p u = false) ->
  first_time p from span = None.
Proof.
  revert from. induction span as [|k IH]; intros from N; [reflexivity|].
  cbn. rewrite N by lia. apply IH. intros u U. apply N. lia.
Qed.

Lemma first_time_found p from span u :
  from <= u < from + span -> p u = true ->
  exists t, first_time p from span = Some t /\ from <= t <= u /\ p t = true.
Proof.
  revert from. induction span as [|k IH]; intros from U P; [lia|].
  cbn. destruct (p from) eqn:F.
  - exists from. repeat split; auto; lia.
  - assert (from <> u) by congruence.
    destruct (IH (S from)) as (t & E & T & Pt); [lia|assumption|].
    exists t. repeat split; auto; lia.
Qed.

Lemma holds_attached e : holds Attached e = true <-> e <> Missing.
Proof. destruct e; cbn; split; congruence. Qed.

Lemma holds_visible e : holds Visible e = false <-> e <> Shown.
Proof. destruct e; cbn; split; congruence. Qed.

Lemma holds_hidden e : holds Hidden e = true <-> e <> Shown.
Proof. destruct e; cbn; split; congruence. Qed.


(** The same run with its duration: the driver is back within one [page.$]
    of the instant [t1], so the wait on the indicator took no time. *)
Lemma mock_fast_path_timed (st : Site) (p : Picked) (c : nat) (held : bool)
    (trigger x target : string) (t1 : nat) :
  element st p c trigger <> Missing ->
  (forall t, element st (p ++ [(trigger, Js.Str x)]) t
               "#MainContent_UpdateProgress1" <> Shown) ->
  t1 < Z.to_nat 5000 ->
  (forall t, t1 <= t ->
     element st (p ++ [(trigger, Js.Str x)]) t (target +++ ":not([disabled])")
       <> Missing) ->
  exists w' found,
    waitForDropdownUpdate trigger (Js.Str x) target (mkSt (mkWorld st p c) held) =
      (Returned tt, mkSt w' held,
       [ ev_select trigger (Js.Str x) (Returned tt);
         ev_race target (Returned Second);
         ev_query (Returned found) ]
       ++ (if found then [ev_hidden (Returned tt)] else [])
       ++ [ ev_enabled target (Returned tt) ]) /\
    clock w' <= t1 + latency st.
Proof.
  intros Htrig Hind Ht1 Htgt.
  set (p' := p ++ [(trigger, Js.Str x)]) in *.
  assert (R1 : settles (mkWorld st p' 0)
                 (mkWait "#MainContent_UpdateProgress1" Visible 5000) = None).
  { apply first_time_none. intros u _. unfold satisfied. cbn.
    now apply holds_visible. }
  destruct (first_time_found
              (satisfied (mkWorld st p' 0)
                 (mkWait (target +++ ":not([disabled])") Attached 5000))
              0 (Z.to_nat 5000) t1) as (tr & R2 & Tr & _).
  { lia. }
  { unfold satisfied. cbn. apply holds_attached, Htgt. lia. }
  set (tq := tr + latency st).
  set (found := match element st p' tq "#MainContent_UpdateProgress1" with
                | Missing => false | _ => true end).
  destruct (first_time_found
              (satisfied (mkWorld st p' tq)
                 (mkWait (target +++ ":not([disabled])") Attached 15000))
              tq (Z.to_nat 15000) (Nat.max tq t1)) as (tf & R5 & Tf & _).
  { lia. }
  { unfold satisfied. cbn. apply holds_attached, Htgt. lia. }
  exists (mkWorld st p' tf), found.
  split; [|cbn [clock]; unfold tq in Tf; lia].
  apply advance_settles
    with (w1 := mkWorld st p' 0) (w2 := mkWorld st p' tr)
         (w3 := mkWorld st p' tq) (w4 := mkWorld st p' tq).
  - cbn. destruct (element st p c trigger); [congruence|reflexivity|reflexivity].
  - cbn [race mock_puppeteer]. unfold mock_race.
    change (settles (mkWorld st p' 0)
              (mkWait (target +++ ":not([disabled])") Attached 5000))
      with (first_time (satisfied (mkWorld st p' 0)
              (mkWait (target +++ ":not([disabled])") Attached 5000)) 0 (Z.to_nat 5000)).
    rewrite R1, R2. unfold deadline. cbn [clock timeout Nat.add].
    destruct (Nat.leb_spec (Z.to_nat 5000) tr); [lia|reflexivity].
  - reflexivity.
  - destruct found; [|reflexivity].
    cbn [perform mock_puppeteer mock_perform]. unfold settles.
    cbn [clock timeout]. rewrite first_time_now; [reflexivity| |lia].
    unfold satisfied. cbn. now apply holds_hidden.
  - cbn [perform mock_puppeteer mock_perform]. unfold settles.
    cbn [clock timeout]. rewrite R5. reflexivity.
Qed.

End Clock.

(** C2, as the code has it.  The long wait follows [page.$], not the race.
    In every run in which the race and [page.$] resolve, the wait for the
    indicator to be hidden is made exactly when [page.$] found the
    indicator's element, whichever promise won the race; when it was not
    found, the call after [page.$] is the final confirmation.  A wait on an indicator that is in
    the page but not displayed resolves at once: on the stand-in browser,
    when the indicator is never displayed and the target field is enabled
    from an instant [t1] of the race window on, the driver returns within
    the time of one [page.$] after [t1]. *)
Theorem C2_hidden_wait_follows_the_query :
  (forall (W : Type) (P : Puppeteer W) trigger v target (s : St W) r s' l b found,
     waitForDropdownUpdate trigger v target s = (r, s', l) ->
     In (ev_race target (Returned b)) l ->
     In (ev_query (Returned found)) l ->
     ((exists o, In (ev_hidden o) l) <-> found = true) /\
     (found = false ->
      exists o rest,
        l = [ ev_select trigger v (Returned tt); ev_race target (Returned b);
              ev_query (Returned false); ev_enabled target o ] ++ rest)) /\
  (forall (st : Mock.Site) (p : Mock.Picked) (c : nat) (held : bool)
          (trigger x target : string) (t1 : nat),
     Mock.element st p c trigger <> Mock.Missing ->
     (forall t, Mock.element st (p ++ [(trigger, Js.Str x)]) t
                  "#MainContent_UpdateProgress1" <> Mock.Shown) ->
     t1 < Z.to_nat 5000 ->
     (forall t, t1 <= t ->
        Mock.element st (p ++ [(trigger, Js.Str x)]) t
          (target +++ ":not([disabled])") <> Mock.Missing) ->
     exists w' found,
       waitForDropdownUpdate trigger (Js.Str x) target
         (mkSt (Mock.mkWorld st p c) held) =
       (Returned tt, mkSt w' held,
        [ ev_select trigger (Js.Str x) (Returned tt);
          ev_race target (Returned Second);
          ev_query (Returned found) ]
        ++ (if found then [ev_hidden (Returned tt)] else [])
        ++ [ ev_enabled target (Returned tt) ]) /\
       Mock.clock w' <= t1 + Mock.latency st).
Proof.
  split; [|exact mock_fast_path_timed].
  intros W P trigger v target s r s' l b found E Hrace Hquery.
  apply advance_shapes in E as [S _].
  unfold ev_race, ev_select, ev_query, ev_hidden, ev_enabled in *.
  destruct S as [e|e|b' e|b' e|b' found' e|b' found'];
    try (destruct found'); cbn in Hquery, Hrace;
    unfold ev_race, ev_select, ev_query, ev_hidden, ev_enabled in *;
    try (exfalso; intuition discriminate);
    assert (Eb : b' = b) by (repeat match goal with H : _ \/ _ |- _ => destruct H | H : False |- _ => destruct H end; congruence); subst b';
    assert (F : found = true \/ found = false)
      by (destruct found; auto);
    destruct F as [-> | ->]; try (exfalso; intuition discriminate);
    (split; [split; try reflexivity; try discriminate|]).
  all: try (intros _; eexists; cbn; eauto 10; fail).
  all: try (intros (o & I); exfalso; cbn in I; intuition discriminate).
  all: try discriminate.
  all: intros _; eexists _, _; cbn; reflexivity.
Qed.

Lemma C2_witness :
  ((exists o,
     In (ev_hidden o)
        (snd (waitForDropdownUpdate "#MainContent_ddlMake" (Js.Str "1")
                "#MainContent_ddlModel" (mkSt (Mock.fresh Mock.quick_form) true))))
   <-> true = true) /\
  exists w' found,
    waitForDropdownUpdate "#MainContent_ddlMake" (Js.Str "1") "#MainContent_ddlModel"
      (mkSt (Mock.fresh Mock.quick_form) true) =
    (Returned tt, mkSt w' true,
     [ ev_select "#MainContent_ddlMake" (Js.Str "1") (Returned tt);
       ev_race "#MainContent_ddlModel" (Returned Second);
       ev_query (Returned found) ]
     ++ (if found then [ev_hidden (Returned tt)] else [])
     ++ [ ev_enabled "#MainContent_ddlModel" (Returned tt) ]) /\
    Mock.clock w' <= 100 + Mock.latency Mock.quick_form.
Proof.
  split.
  - refine (proj1 (proj1 C2_hidden_wait_follows_the_query Mock.World Mock.mock_puppeteer
              "#MainContent_ddlMake" (Js.Str "1") "#MainContent_ddlModel"
              (mkSt (Mock.fresh Mock.quick_form) true) (Returned tt)
              (mkSt (Mock.mkWorld Mock.quick_form [("#MainContent_ddlMake", Js.Str "1")] 105) true)
              _ Second true _ _ _)).
    + vm_compute. reflexivity.
    + vm_compute. auto.
    + vm_compute. auto.
  - apply (proj2 C2_hidden_wait_follows_the_query) with (t1 := 100).
    + vm_compute. discriminate.
    + intros t. cbn. discriminate.
    + apply Nat.ltb_lt. vm_compute. reflexivity.
    + intros t Ht. apply Nat.leb_le in Ht.
      unfold Mock.quick_form, Mock.form, Mock.form_element.
      cbn -[Nat.leb]. rewrite Ht. discriminate.
Defined.

(** The specification's wording of C2 does not hold on the late form.  The
    target field is enabled 100 ms after the selection and wins the race;
    the indicator, not displayed until then, is displayed from 102 ms on.  The indicator was
    not observed by the race, yet the long wait is made, runs out after
    15000 ms and fails the call: the final confirmation, which the enabled
    target would have passed, is never made. *)
Lemma C2_counterexample :
  (forall t, t < 102 ->
     Mock.element Mock.late_form [("#MainContent_ddlMake", Js.Str "1")] t
       "#MainContent_UpdateProgress1" = Mock.Concealed) /\
  (forall t, 100 <= t ->
     Mock.element Mock.late_form [("#MainContent_ddlMake", Js.Str "1")] t
       "#MainContent_ddlModel:not([disabled])" = Mock.Shown) /\
  fst (fst (waitForDropdownUpdate "#MainContent_ddlMake" (Js.Str "1")
              "#MainContent_ddlModel" (mkSt (Mock.fresh Mock.late_form) true)))
    = Threw "Failed to load #MainContent_ddlModel after selecting 1" /\
  snd (waitForDropdownUpdate "#MainContent_ddlMake" (Js.Str "1")
         "#MainContent_ddlModel" (mkSt (Mock.fresh Mock.late_form) true))
    = [ ev_select "#MainContent_ddlMake" (Js.Str "1") (Returned tt);
        ev_race "#MainContent_ddlModel" (Returned Second);
        ev_query (Returned true);
        ev_hidden (Threw "Waiting for selector `#MainContent_UpdateProgress1` failed");
        ConsoleError
          "Dropdown update failed from #MainContent_ddlMake to #MainContent_ddlModel:"
          "Waiting for selector `#MainContent_UpdateProgress1` failed" ] /\
  Z.of_nat
    (Mock.clock
       (world (snd (fst (waitForDropdownUpdate "#MainContent_ddlMake" (Js.Str "1")
                           "#MainContent_ddlModel"
                           (mkSt (Mock.fresh Mock.late_form) true))))))
    = (100 + 5 + 15000)%Z /\
  ~ ((exists o,
        In (ev_hidden o)
           (snd (waitForDropdownUpdate "#MainContent_ddlMake" (Js.Str "1")
                   "#MainContent_ddlModel" (mkSt (Mock.fresh Mock.late_form) true))))
     <-> In (ev_race "#MainContent_ddlModel" (Returned First))
            (snd (waitForDropdownUpdate "#MainContent_ddlMake" (Js.Str "1")
                    "#MainContent_ddlModel" (mkSt (Mock.fresh Mock.late_form) true)))).
Proof.
  assert (L : snd (waitForDropdownUpdate "#MainContent_ddlMake" (Js.Str "1")
                     "#MainContent_ddlModel" (mkSt (Mock.fresh Mock.late_form) true))
    = [ ev_select "#MainContent_ddlMake" (Js.Str "1") (Returned tt);
        ev_race "#MainContent_ddlModel" (Returned Second);
        ev_query (Returned true);
        ev_hidden (Threw "Waiting for selector `#MainContent_UpdateProgress1` failed");
        ConsoleError
          "Dropdown update failed from #MainContent_ddlMake to #MainContent_ddlModel:"
          "Waiting for selector `#MainContent_UpdateProgress1` failed" ])
    by (vm_compute; reflexivity).
  split; [|split; [|split; [|split; [|split]]]].
  - intros t Ht. apply Nat.leb_gt in Ht.
    unfold Mock.late_form, Mock.form, Mock.form_element.
    cbn -[Nat.leb]. now rewrite Ht.
  - intros t Ht. apply Nat.leb_le in Ht.
    unfold Mock.late_form, Mock.form, Mock.form_element.
    cbn -[Nat.leb]. now rewrite Ht.
  - vm_compute. reflexivity.
  - exact L.
  - vm_compute. reflexivity.
  - rewrite L. intros [Claim _].
    assert (I : exists o,
               In (ev_hidden o)
                  [ ev_select "#MainContent_ddlMake" (Js.Str "1") (Returned tt);
                    ev_race "#MainContent_ddlModel" (Returned Second);
                    ev_query (Returned true);
                    ev_hidden (Threw "Waiting for selector `#MainContent_UpdateProgress1` failed");
                    ConsoleError
                      "Dropdown update failed from #MainContent_ddlMake to #MainContent_ddlModel:"
                      "Waiting for selector `#MainContent_UpdateProgress1` failed" ]).
    { eexists. right; right; right; left. reflexivity. }
    apply Claim in I.
    unfold ev_select, ev_race, ev_query, ev_hidden in I.
    cbn in I. intuition discriminate.
Qed.



Lemma names_skip before s x : names s x = true -> names (before +++ s) x = true.
Proof.
  intros N. induction before as [|c b IH]; [exact N|].
  cbn [String.append names]. rewrite IH. apply orb_true_r.
Qed.

Lemma names_self x : names x x = true.
Proof.
  apply names_prefix. induction x as [|c x IH]; [reflexivity|].
  cbn. destruct (ascii_dec c c); [exact IH|congruence].
Qed.

(** C6, as the code has it.  When a call of the driver rejects, the driver
    throws an error whose message names the target field and the value that
    was selected; the trigger field is named in the console line written
    before the throw, not in the error.  The call that rejected is the last
    call the driver makes: nothing is tried again. *)
Theorem C6_failure_names_target_and_value
    {W : Type} `{Puppeteer W} trigger v target (s : St W) r s' l :
  waitForDropdownUpdate trigger v target s = (r, s', l) ->
  existsb rejected l = true ->
  r = Threw (failure_message target v) /\
  names (failure_message target v) target = true /\
  names (failure_message target v) (Js.to_string v) = true /\
  (exists before c cause,
     l = before ++ [c; ConsoleError (failure_line trigger target) cause] /\
     rejected c = true /\ existsb rejected before = false /\
     console_lines before = []) /\
  names (failure_line trigger target) trigger = true /\
  names (failure_line trigger target) target = true /\
  selections l = [(trigger, v)] /\
  length (filter is_call l) <= 5.
Proof.
  intros E Hrej. apply advance_shapes in E as [S _].
  assert (N1 : names (failure_message target v) target = true)
    by apply (names_inside "Failed to load ").
  assert (N2 : names (failure_message target v) (Js.to_string v) = true).
  { unfold failure_message. do 3 apply names_skip. apply names_self. }
  assert (N3 : names (failure_line trigger target) trigger = true)
    by apply (names_inside "Dropdown update failed from ").
  assert (N4 : names (failure_line trigger target) target = true)
    by (unfold failure_line; do 3 apply names_skip;
        apply names_prefix, prefix_append).
  destruct S as [e|e|b e|b e|b found e|b found]; try destruct found;
    try (cbn in Hrej; discriminate);
    (split; [reflexivity|]); (split; [exact N1|]); (split; [exact N2|]);
    (split; [|split; [exact N3|split; [exact N4|split; [reflexivity|cbn; lia]]]]).
  - now exists [], (ev_select trigger v (Threw e)), e.
  - now exists [ev_select trigger v (Returned tt)], (ev_race target (Threw e)), e.
  - now exists [ev_select trigger v (Returned tt); ev_race target (Returned b)],
      (ev_query (Threw e)), e.
  - now exists [ev_select trigger v (Returned tt); ev_race target (Returned b);
                ev_query (Returned true)], (ev_hidden (Threw e)), e.
  - now exists [ev_select trigger v (Returned tt); ev_race target (Returned b);
                ev_query (Returned true); ev_hidden (Returned tt)],
      (ev_enabled target (Threw e)), e.
  - now exists [ev_select trigger v (Returned tt); ev_race target (Returned b);
                ev_query (Returned false)], (ev_enabled target (Threw e)), e.
Qed.

Lemma C6_witness :
  fst (fst (waitForDropdownUpdate "#MainContent_ddlMake" (Js.Str "7")
              "#MainContent_ddlModel" (mkSt (Mock.fresh Mock.hung_form) true)))
  = Threw "Failed to load #MainContent_ddlModel after selecting 7".
Proof.
  destruct (waitForDropdownUpdate "#MainContent_ddlMake" (Js.Str "7")
              "#MainContent_ddlModel" (mkSt (Mock.fresh Mock.hung_form) true))
    as [[r s'] l] eqn:E.
  destruct (C6_failure_names_target_and_value _ _ _ _ _ _ _ E) as [-> _].
  - vm_compute in E. injection E as _ _ <-. reflexivity.
  - reflexivity.
Defined.

(** The specification's wording of C6 does not hold: the error thrown for a timeout after selecting
    Make = 7 does not name the trigger field. *)
Lemma C6_counterexample :
  exists e,
    fst (fst (waitForDropdownUpdate "#MainContent_ddlMake" (Js.Str "7")
                "#MainContent_ddlModel" (mkSt (Mock.fresh Mock.dead_form) true)))
    = Threw e /\
    names e "#MainContent_ddlModel" = true /\
    names e "7" = true /\
    names e "#MainContent_ddlMake" = false /\
    names e "Make" = false.
Proof.
  eexists. split; [vm_compute; reflexivity|]. vm_compute. auto.
Qed.

(* ================================================================== *)
(** ** The Cascade Resolver *)
(* ================================================================== *)

Lemma length_all_steps q : length (all_steps q) = 5.
Proof. reflexivity. Qed.

Lemma depth_le q : depth q <= 5.
Proof.
  destruct q as [a b c d e]. unfold depth, identifiers. cbn.
  destruct (Js.truthy a), (Js.truthy b), (Js.truthy c), (Js.truthy d),
    (Js.truthy e); lia.
Qed.

Lemma length_steps q : length (steps q) = depth q.
Proof.
  unfold steps. rewrite length_firstn, length_all_steps.
  pose proof (depth_le q). lia.
Qed.

Lemma plan_prefix q : 0 < depth q -> plan q = steps q.
Proof.
  intros D. unfold plan. destruct (Nat.ltb_spec 0 (depth q)); [reflexivity|lia].
Qed.

Lemma plan_empty q : contiguous q = true -> depth q = 0 -> plan q = [].
Proof. intros C D. unfold plan. now rewrite D, C. Qed.

Lemma plan_gap q : contiguous q = false -> depth q = 0 -> plan q = all_steps q.
Proof. intros C D. unfold plan. now rewrite D, C. Qed.


(** The requests the five guards all turn down. *)
Lemma guards_false q :
  guard_makes q = false -> guard_models q = false -> guard_years q = false ->
  guard_countries q = false -> guard_fuels q = false ->
  plan q = all_steps q.
Proof.
  destruct q as [a b c d e].
  unfold guard_makes, guard_models, guard_years, guard_countries, guard_fuels,
    plan, steps, contiguous, all_steps; unfold depth, identifiers.
  cbn [makeId modelId yearId countryId fuelId prefix_length].
  destruct (Js.truthy a) eqn:Ha, (Js.truthy b) eqn:Hb, (Js.truthy c) eqn:Hc,
    (Js.truthy d) eqn:Hd, (Js.truthy e) eqn:He;
    cbn [negb andb Nat.ltb Nat.leb skipn forallb firstn zip_steps stages];
    rewrite ?Ha, ?Hb, ?Hc, ?Hd, ?He; cbn [negb andb];
    intros; try discriminate; reflexivity.
Qed.


Lemma calm_quiet l : forallb calm l = true -> quiet_after_failure l = true.
Proof.
  induction l as [|e l IH]; [reflexivity|].
  cbn. intros [_ C]%andb_prop. destruct (rejected e); auto.
Qed.



Lemma advance_shape_first trigger v target r l :
  advance_shape trigger v target r l ->
  exists o rest, l = ev_select trigger v o :: rest.
Proof. intros []; eexists _, _; reflexivity. Qed.

Section Walks.

Context {W : Type} `{Puppeteer W}.


Lemma read_stage_run (k : nat) (s : St W) r s' l :
  read_stage k s = (r, s', l) ->
  exists r0,
    read_shape (nth k stages "") r0 l /\
    r = match r0 with
        | Returned opts => Returned [(nth k properties "", opts)]
        | Threw e => Threw e
        end.
Proof.
  unfold read_stage, bind, ret.
  destruct (getSelectOptions (nth k stages "") s) as [[[opts|e] s1] l1] eqn:E;
    apply read_shapes in E as [S _]; intros E; injection E as <- <- <-.
  - exists (Returned opts). now rewrite app_nil_r.
  - now exists (Threw e).
Qed.


Lemma walk_read_first trigger v target rest (k : nat) (s : St W) r s' l :
  bind (advance_all ((trigger, v, target) :: rest)) (fun _ => read_stage k) s
    = (r, s', l) ->
  exists o rest', l = ev_select trigger v o :: rest'.
Proof.
  cbn [advance_all]. rewrite bind_assoc. unfold bind at 1.
  destruct (waitForDropdownUpdate trigger v target s) as [[[[]|e] s1] l1] eqn:E1;
    apply advance_shapes in E1 as [S1 _];
    apply advance_shape_first in S1 as (o & tl1 & ->).
  - match goal with |- context [bind ?m ?f s1] =>
      destruct (bind m f s1) as [[r2 s2] l2] end.
    intros E; injection E as <- <- <-. now exists o, (tl1 ++ l2).
  - intros E; injection E as <- <- <-. now exists o, tl1.
Qed.

(** A walk that returns is one returned driver invocation per step, one
    after the other. *)
Lemma advance_all_logs (l0 : list Step) (s : St W) u s' l :
  advance_all l0 s = (Returned u, s', l) ->
  exists logs, l = concat logs /\ Forall2 settled_step l0 logs.
Proof.
  destruct u. revert s s' l.
  induction l0 as [|[[trigger v] target] rest IH]; intros s s' l.
  - cbn. unfold ret. intros [= <- <-]. now exists [].
  - cbn [advance_all]. unfold bind at 1.
    destruct (waitForDropdownUpdate trigger v target s) as [[[[]|e] s1] l1] eqn:E1;
      [|discriminate].
    destruct (advance_all rest s1) as [[[[]|e] s2] l2] eqn:E2; [|discriminate].
    intros [= <- <-]. apply advance_shapes in E1 as [S1 _].
    apply IH in E2 as (logs & -> & F).
    exists (l1 :: logs). split; [reflexivity|]. now constructor.
Qed.

Lemma walk_read_returned (l0 : list Step) (k : nat) (s : St W) result s' l :
  bind (advance_all l0) (fun _ => read_stage k) s = (Returned result, s', l) ->
  exists logs raw,
    l = concat logs ++ [ ev_enabled (nth k stages "") (Returned tt);
                         ev_options (nth k stages "") (Returned raw) ] /\
    Forall2 settled_step l0 logs /\
    result = [(nth k properties "", option_set raw)].
Proof.
  unfold bind at 1.
  destruct (advance_all l0 s) as [[[[]|e] s1] l1] eqn:E1; [|discriminate].
  destruct (read_stage k s1) as [[r2 s2] l2] eqn:E2.
  intros [= -> <- <-].
  apply advance_all_logs in E1 as (logs & -> & F).
  apply read_stage_run in E2 as (r0 & S0 & E0).
  destruct S0 as [e|e|raw]; try discriminate.
  injection E0 as ->. now exists logs, raw.
Qed.

End Walks.

(** C1.  For a request that supplies a contiguous prefix of [d > 0]
    identifiers, the handler's branch is the resolver of the specification:
    the driver is invoked for the first [d] stages in chain order, each after
    the one before it has returned, with the supplied identifiers in the same
    order, and the options of stage [d + 1] are read after the last of them.
    The log of a run that returns is [d] returned driver invocations, one
    per supplied identifier and one after the other, followed by the read;
    in every run the selections made are a beginning of those [d]. *)
Theorem C1_walks_supplied_prefix_then_reads_next
    {W : Type} `{Puppeteer W} (q : Query) :
  contiguous q = true ->
  0 < depth q ->
  (forall s : St W, dispatch q s = resolve q s) /\
  (forall (s : St W) result s' l,
     dispatch q s = (Returned result, s', l) ->
     exists logs raw,
       l = concat logs
           ++ [ ev_enabled (nth (depth q) stages "") (Returned tt);
                ev_options (nth (depth q) stages "") (Returned raw) ] /\
       Forall2 settled_step (steps q) logs /\
       length logs = depth q /\
       selections (concat logs) = map step_selection (steps q) /\
       result = [(nth (depth q) properties "", option_set raw)]) /\
  (forall (s : St W) r s' l,
     dispatch q s = (r, s', l) ->
     exists n, 1 <= n <= depth q /\
               selections l = map step_selection (firstn n (steps q))).
Proof.
  intros _ D.
  assert (E : forall s : St W, dispatch q s = resolve q s).
  { intros s. rewrite dispatch_plan, (plan_prefix q D), length_steps. reflexivity. }
  split; [exact E|]. split.
  - intros s result s' l R. rewrite E in R. unfold resolve in R.
    pose proof (walk_read_run _ _ _ _ _ _ R) as (_ & walk & raw' & L' & Sel & _).
    apply walk_read_returned in R as (logs & raw & -> & F & ->).
    exists logs, raw. split; [reflexivity|]. split; [exact F|].
    split; [now rewrite <- (Forall2_length F), length_steps|].
    split; [|reflexivity].
    rewrite <- Sel. apply (f_equal selections) in L'.
    rewrite !selections_app in L'. cbn in L'. now rewrite !app_nil_r in L'.
  - intros s r s' l R. rewrite E in R. unfold resolve in R.
    pose proof (length_steps q) as L.
    apply walk_read_run in R as (_ & R). destruct r as [result|e].
    + destruct R as (walk & raw & -> & Sel & _).
      exists (depth q). split; [lia|].
      rewrite selections_app, Sel, <- L, firstn_all. cbn. now rewrite app_nil_r.
    + destruct R as (_ & [(n & t & v & g & Hn & Sel & _)|(Sel & _)]).
      * exists (S n). split; [|exact Sel].
        assert (n < length (steps q)) by (apply nth_error_Some; congruence). lia.
      * exists (depth q). split; [lia|]. now rewrite <- L, firstn_all.
Qed.

Lemma C1_witness :
  dispatch (mkQuery (Js.Str "1") (Js.Str "5") Js.Undefined Js.Undefined Js.Undefined)
           (mkSt (Mock.fresh Mock.quick_form) true)
  = resolve (mkQuery (Js.Str "1") (Js.Str "5") Js.Undefined Js.Undefined Js.Undefined)
            (mkSt (Mock.fresh Mock.quick_form) true).
Proof.
  apply (C1_walks_supplied_prefix_then_reads_next
           (mkQuery (Js.Str "1") (Js.Str "5") Js.Undefined Js.Undefined Js.Undefined)).
  - reflexivity.
  - apply Nat.ltb_lt. reflexivity.
Defined.

Lemma calm_of_not_driving l :
  forallb calm l = true -> forallb (fun e => negb (drives e)) l = true.
Proof.
  induction l as [|e l IH]; [reflexivity|].
  cbn. intros [C R]%andb_prop. rewrite (IH R), andb_true_r.
  destruct e as [[] ?| | | |]; cbn in *; congruence.
Qed.

(** C8.  For a request with no identifier, the handler's branch is the read
    of the Make field and nothing else: no call of the Selection Driver is
    made in any run, and a run that answers 200 has read the Make options
    right after the page was loaded and returns them under [makes]. *)
Theorem C8_empty_request_reads_makes
    {W : Type} `{Puppeteer W} (q : Query) :
  contiguous q = true ->
  depth q = 0 ->
  (forall s : St W, dispatch q s = read_stage 0 s) /\
  (forall (isProduction : bool) (w : W) reply w' l,
     scrape_options isProduction q w = (reply, w', l) ->
     forallb (fun e => negb (drives e)) l = true /\
     forall result,
       reply = Json200 result ->
       exists raw,
         l = provisioned
             ++ [ ev_enabled "#MainContent_ddlMake" (Returned tt);
                  ev_options "#MainContent_ddlMake" (Returned raw);
                  Performed Close (Returned tt) ] /\
         result = [("makes", option_set raw)]).
Proof.
  intros C D.
  assert (E : forall s : St W, dispatch q s = read_stage 0 s).
  { intros s. rewrite dispatch_plan, (plan_empty q C D).
    exact (bind_ret_l tt (fun _ => read_stage 0) s). }
  split; [exact E|].
  intros isProduction w reply w' l R.
  apply handler_run in R as [(Calm & _ & _ & _ & e & closed & ->)|
                             (s & r & s1 & dl & tail & _ & Ed & -> & R)].
  - split; [now apply calm_of_not_driving|].
    intros result Bad. destruct closed; discriminate.
  - rewrite E in Ed. apply read_stage_run in Ed as (r0 & S0 & ->).
    destruct S0 as [e|e|raw].
    + destruct R as (closed & -> & ->). split; [reflexivity|].
      intros result Bad. destruct closed; discriminate.
    + destruct R as (closed & -> & ->). split; [reflexivity|].
      intros result Bad. destruct closed; discriminate.
    + destruct R as [[-> ->]|(e & closed & -> & ->)].
      * split; [reflexivity|]. intros result [= <-]. now exists raw.
      * split; [reflexivity|]. intros result Bad. destruct closed; discriminate.
Qed.

Lemma C8_witness :
  dispatch (mkQuery Js.Undefined Js.Undefined Js.Undefined Js.Undefined Js.Undefined)
           (mkSt (Mock.fresh Mock.quick_form) true)
  = read_stage 0 (mkSt (Mock.fresh Mock.quick_form) true).
Proof.
  apply (C8_empty_request_reads_makes
           (mkQuery Js.Undefined Js.Undefined Js.Undefined Js.Undefined Js.Undefined));
    reflexivity.
Defined.

(** C10.  A request that none of the five guards accepts is served by the
    final [else]: the driver is invoked for all five stages in chain order
    with the five identifiers as they came, absent ones included, and the
    Engine options are read after them.  The first call of the branch is the
    selection of [makeId] on the Make field, whatever [makeId] is. *)
Theorem C10_else_branch_walks_whole_chain
    {W : Type} `{Puppeteer W} (q : Query) :
  guard_makes q = false ->
  guard_models q = false ->
  guard_years q = false ->
  guard_countries q = false ->
  guard_fuels q = false ->
  (forall s : St W,
     dispatch q s =
     (waitForDropdownUpdate "#MainContent_ddlMake" (makeId q) "#MainContent_ddlModel" ;;
      waitForDropdownUpdate "#MainContent_ddlModel" (modelId q) "#MainContent_ddlYear" ;;
      waitForDropdownUpdate "#MainContent_ddlYear" (yearId q) "#MainContent_ddlCountry" ;;
      waitForDropdownUpdate "#MainContent_ddlCountry" (countryId q) "#MainContent_ddlFuel" ;;
      waitForDropdownUpdate "#MainContent_ddlFuel" (fuelId q) "#MainContent_ddlEngine" ;;
      engines <- getSelectOptions "#MainContent_ddlEngine" ;;
      ret (set_prop "engines" engines [])) s) /\
  (forall (s : St W) r s' l,
     dispatch q s = (r, s', l) ->
     exists o rest, l = ev_select "#MainContent_ddlMake" (makeId q) o :: rest) /\
  (forall (s : St W) result s' l,
     dispatch q s = (Returned result, s', l) ->
     exists walk raw,
       l = walk ++ [ ev_enabled "#MainContent_ddlEngine" (Returned tt);
                     ev_options "#MainContent_ddlEngine" (Returned raw) ] /\
       selections walk =
         [ ("#MainContent_ddlMake", makeId q); ("#MainContent_ddlModel", modelId q);
           ("#MainContent_ddlYear", yearId q); ("#MainContent_ddlCountry", countryId q);
           ("#MainContent_ddlFuel", fuelId q) ] /\
       result = [("engines", option_set raw)]).
Proof.
  intros G1 G2 G3 G4 G5.
  pose proof (guards_false q G1 G2 G3 G4 G5) as P.
  assert (E : forall s : St W,
             dispatch q s = bind (advance_all (all_steps q)) (fun _ => read_stage 5) s).
  { intros s. now rewrite dispatch_plan, P. }
  split; [|split].
  - intros s. rewrite E. unfold all_steps, identifiers.
    cbn [zip_steps stages advance_all].
    rewrite ?bind_assoc; repeat (apply bind_ext; intros; rewrite ?bind_assoc).
    rewrite bind_ret_l. reflexivity.
  - intros s r s' l R. rewrite E in R. now apply walk_read_first in R.
  - intros s result s' l R. rewrite E in R.
    apply walk_read_run in R as (_ & walk & raw & -> & Sel & _ & _ & ->).
    now exists walk, raw.
Qed.

Lemma C10_witness :
  exists o rest,
    snd (dispatch (mkQuery Js.Undefined Js.Undefined (Js.Str "x") Js.Undefined Js.Undefined)
           (mkSt (Mock.fresh Mock.quick_form) true))
    = ev_select "#MainContent_ddlMake" Js.Undefined o :: rest.
Proof.
  destruct (dispatch (mkQuery Js.Undefined Js.Undefined (Js.Str "x") Js.Undefined Js.Undefined)
              (mkSt (Mock.fresh Mock.quick_form) true)) as [[r s'] l] eqn:E.
  exact (proj1 (proj2 (C10_else_branch_walks_whole_chain
                         (mkQuery Js.Undefined Js.Undefined (Js.Str "x")
                                  Js.Undefined Js.Undefined)
                         eq_refl eq_refl eq_refl eq_refl eq_refl))
               _ _ _ _ E).
Defined.

(** C4, as the code has it.  A request that supplies an identifier after a
    missing one is not turned down: the handler has no check of the kind.
    When Make is supplied the request is resolved as its contiguous prefix,
    the identifiers after the gap being ignored; when Make is missing the
    final [else] drives the whole chain.  Either way the browser is launched
    and the first call on the form is the selection of [makeId] on the Make
    field. *)
Theorem C4_gap_is_driven_not_rejected
    {W : Type} `{Puppeteer W} (q : Query) :
  contiguous q = false ->
  (0 < depth q -> forall s : St W, dispatch q s = resolve q s) /\
  (depth q = 0 ->
   forall s : St W,
     dispatch q s = (advance_all (all_steps q) ;; read_stage 5) s) /\
  (forall (s : St W) r s' l,
     dispatch q s = (r, s', l) ->
     exists o rest, l = ev_select "#MainContent_ddlMake" (makeId q) o :: rest) /\
  (forall (isProduction : bool) (w : W) reply w' l,
     scrape_options isProduction q w = (reply, w', l) ->
     exists o rest, l = Performed Launch o :: rest).
Proof.
  intros C.
  assert (E1 : 0 < depth q -> forall s : St W, dispatch q s = resolve q s).
  { intros D s. rewrite dispatch_plan, (plan_prefix q D), length_steps. reflexivity. }
  assert (E2 : depth q = 0 -> forall s : St W,
               dispatch q s = (advance_all (all_steps q) ;; read_stage 5) s).
  { intros D s. now rewrite dispatch_plan, (plan_gap q C D). }
  split; [exact E1|]. split; [exact E2|]. split.
  - intros s r s' l R. destruct (depth q) as [|d] eqn:D.
    + rewrite (E2 eq_refl) in R. now apply walk_read_first in R.
    + rewrite dispatch_plan in R.
      assert (P : exists rest, plan q = ("#MainContent_ddlMake", makeId q,
                                         "#MainContent_ddlModel") :: rest).
      { unfold plan, steps. rewrite D. cbn. eauto. }
      destruct P as (rest & P). rewrite P in R. now apply walk_read_first in R.
  - intros isProduction w reply w' l.
    unfold scrape_options, try_catch, try_block, puppeteer_launch.
    rewrite !bind_assoc. unfold bind at 1. unfold act at 1.
    cbn [world browser].
    destruct (perform Launch w) as [[[]|e] w0].
    + match goal with |- context [bind ?m ?f ?s0] =>
        destruct (bind m f s0) as [[[r|e] s1] l1] end.
      * intros [= <- <- <-]. eauto.
      * match goal with |- context [catch_block ?b ?e ?s0] =>
          destruct (catch_block b e s0) as [[[r|e2] s2] l2] end;
          intros [= <- <- <-]; eauto.
    + match goal with |- context [catch_block ?b ?e ?s0] =>
        destruct (catch_block b e s0) as [[[r|e2] s2] l2] end;
        intros [= <- <- <-]; eauto.
Qed.

Lemma C4_witness :
  exists o rest,
    snd (dispatch (mkQuery (Js.Str "1") Js.Undefined (Js.Str "2") Js.Undefined Js.Undefined)
           (mkSt (Mock.fresh Mock.quick_form) true))
    = ev_select "#MainContent_ddlMake" (Js.Str "1") o :: rest.
Proof.
  destruct (dispatch (mkQuery (Js.Str "1") Js.Undefined (Js.Str "2") Js.Undefined Js.Undefined)
              (mkSt (Mock.fresh Mock.quick_form) true)) as [[r s'] l] eqn:E.
  exact (proj1 (proj2 (proj2 (C4_gap_is_driven_not_rejected
                         (mkQuery (Js.Str "1") Js.Undefined (Js.Str "2")
                                  Js.Undefined Js.Undefined) eq_refl)))
               _ _ _ _ E).
Defined.

(** The specification's wording of C4 does not hold.  With Make and Year
    but no Model the handler answers 200 with the Model options; with Year
    alone it launches the browser, loads the page and calls [page.select]
    before it answers 500. *)
Lemma C4_counterexample :
  contiguous (mkQuery (Js.Str "1") Js.Undefined (Js.Str "2") Js.Undefined Js.Undefined)
    = false /\
  fst (fst (scrape_options false
              (mkQuery (Js.Str "1") Js.Undefined (Js.Str "2") Js.Undefined Js.Undefined)
              (Mock.fresh Mock.quick_form)))
    = Json200 [("models", [mkOption "5" "Corolla"; mkOption "6" "Hilux"])] /\
  contiguous (mkQuery Js.Undefined Js.Undefined (Js.Str "x") Js.Undefined Js.Undefined)
    = false /\
  scrape_options false
    (mkQuery Js.Undefined Js.Undefined (Js.Str "x") Js.Undefined Js.Undefined)
    (Mock.fresh Mock.quick_form)
  = (Json500 (error_body false
                "Failed to load #MainContent_ddlModel after selecting undefined"),
     Mock.fresh Mock.quick_form,
     provisioned
     ++ [ ev_select "#MainContent_ddlMake" Js.Undefined
            (Threw "Values must be strings. Found value of type undefined");
          ConsoleError
            "Dropdown update failed from #MainContent_ddlMake to #MainContent_ddlModel:"
            "Values must be strings. Found value of type undefined";
          ConsoleError "Scraping error:"
            "Failed to load #MainContent_ddlModel after selecting undefined";
          Performed Close (Returned tt) ]).
Proof.
  repeat split; vm_compute; reflexivity.
Qed.

Section Replies.

Context {W : Type} `{Puppeteer W}.

(** The handler depends on the request through its dispatch only. *)
Lemma scrape_options_ext (isProduction : bool) (q q' : Query) (w : W) :
  (forall s : St W, dispatch q s = dispatch q' s) ->
  scrape_options isProduction q w = scrape_options isProduction q' w.
Proof.
  intros E. unfold scrape_options, try_catch.
  assert (T : try_block q (mkSt w false) = try_block q' (mkSt w false)).
  { unfold try_block. repeat (apply bind_ext; intros).
    unfold bind. now rewrite E. }
  now rewrite T.
Qed.

Lemma dispatch_normalize (q : Query) (s : St W) :
  guard_makes q || guard_models q || guard_years q || guard_countries q
  || guard_fuels q = true ->
  dispatch (normalize q) s = dispatch q s.
Proof.
  destruct q as [a b c d e].
  unfold guard_makes, guard_models, guard_years, guard_countries, guard_fuels,
    dispatch, normalize.
  cbn [makeId modelId yearId countryId fuelId].
  destruct a as [|[|? ?]], b as [|[|? ?]], c as [|[|? ?]], d as [|[|? ?]],
    e as [|[|? ?]];
    cbn [absent_if_empty Js.truthy negb andb orb];
    intros G; try discriminate G; reflexivity.
Qed.

End Replies.

(** C9, as the code has it.  Every guard of the dispatch sees an identifier
    that is the empty string as it sees an absent one, and a request that
    one of the five guards accepts is served the same, call for call, with
    its empty strings made absent.  (In the final [else] the values
    themselves are handed to the driver, and there the two differ.) *)
Theorem C9_empty_string_is_absent_to_the_guards
    {W : Type} `{Puppeteer W} (q : Query) :
  guard_makes (normalize q) = guard_makes q /\
  guard_models (normalize q) = guard_models q /\
  guard_years (normalize q) = guard_years q /\
  guard_countries (normalize q) = guard_countries q /\
  guard_fuels (normalize q) = guard_fuels q /\
  (guard_makes q || guard_models q || guard_years q || guard_countries q
   || guard_fuels q = true ->
   forall (isProduction : bool) (w : W),
     scrape_options isProduction q w = scrape_options isProduction (normalize q) w).
Proof.
  assert (T : forall v, Js.truthy (absent_if_empty v) = Js.truthy v)
    by (intros [|[|? ?]]; reflexivity).
  do 5 (split;
    [ unfold guard_makes, guard_models, guard_years, guard_countries, guard_fuels,
        normalize; cbn [makeId modelId yearId countryId fuelId];
      rewrite !T; reflexivity | ]).
  intros G isProduction w. apply scrape_options_ext.
  intros s. symmetry. now apply dispatch_normalize.
Qed.

Lemma C9_witness :
  scrape_options false
    (mkQuery (Js.Str "") Js.Undefined Js.Undefined Js.Undefined Js.Undefined)
    (Mock.fresh Mock.quick_form)
  = scrape_options false
      (mkQuery Js.Undefined Js.Undefined Js.Undefined Js.Undefined Js.Undefined)
      (Mock.fresh Mock.quick_form).
Proof.
  apply (C9_empty_string_is_absent_to_the_guards
           (mkQuery (Js.Str "") Js.Undefined Js.Undefined Js.Undefined Js.Undefined)).
  reflexivity.
Defined.

(** The specification's wording of C9 does not hold in the final [else]: with Year alone, an empty
    [makeId] is selected on the Make field, and the chain goes on to the
    Model stage on the quick form or times out on the dead form, while an
    absent [makeId] makes the first selection throw.  The replies differ. *)
Lemma C9_counterexample :
  normalize (mkQuery (Js.Str "") Js.Undefined (Js.Str "x") Js.Undefined Js.Undefined)
    = mkQuery Js.Undefined Js.Undefined (Js.Str "x") Js.Undefined Js.Undefined /\
  fst (fst (scrape_options false
              (mkQuery (Js.Str "") Js.Undefined (Js.Str "x") Js.Undefined Js.Undefined)
              (Mock.fresh Mock.quick_form)))
    = Json500 (error_body false
                 "Failed to load #MainContent_ddlYear after selecting undefined") /\
  fst (fst (scrape_options false
              (mkQuery Js.Undefined Js.Undefined (Js.Str "x") Js.Undefined Js.Undefined)
              (Mock.fresh Mock.quick_form)))
    = Json500 (error_body false
                 "Failed to load #MainContent_ddlModel after selecting undefined") /\
  selections (snd (scrape_options false
              (mkQuery (Js.Str "") Js.Undefined (Js.Str "x") Js.Undefined Js.Undefined)
              (Mock.fresh Mock.quick_form)))
    = [ ("#MainContent_ddlMake", Js.Str ""); ("#MainContent_ddlModel", Js.Undefined) ] /\
  selections (snd (scrape_options false
              (mkQuery Js.Undefined Js.Undefined (Js.Str "x") Js.Undefined Js.Undefined)
              (Mock.fresh Mock.quick_form)))
    = [ ("#MainContent_ddlMake", Js.Undefined) ] /\
  fst (fst (scrape_options false
              (mkQuery (Js.Str "") Js.Undefined (Js.Str "x") Js.Undefined Js.Undefined)
              (Mock.fresh Mock.dead_form)))
    = Json500 (error_body false
                 "Failed to load #MainContent_ddlModel after selecting ") /\
  fst (fst (scrape_options false
              (mkQuery Js.Undefined Js.Undefined (Js.Str "x") Js.Undefined Js.Undefined)
              (Mock.fresh Mock.dead_form)))
    = Json500 (error_body false
                 "Failed to load #MainContent_ddlModel after selecting undefined").
Proof.
  repeat split; vm_compute; reflexivity.
Qed.

(* ================================================================== *)
(** ** The handler as a whole *)
(* ================================================================== *)

Section Whole.

Context {W : Type} `{Puppeteer W}.

Ltac run_call :=
  match goal with
  | |- context [perform ?a ?w] => destruct (perform a w) as [[[]|?] ?] eqn:?
  end; cbn -[dispatch].

(** Every run of the handler, by where it stops: at the launch, at one of
    the four calls that prepare the page, or after the dispatch. *)
Lemma handler_cases (isProduction : bool) (q : Query) (w : W) reply w' l :
  scrape_options isProduction q w = (reply, w', l) ->
  (exists e,
     l = [Performed Launch (Threw e); ConsoleError "Scraping error:" e] /\
     reply = Json500 (error_body isProduction e))
  \/
  (exists n a e closed,
     1 <= n <= 4 /\
     nth_error provisioned n = Some (Performed a (Returned tt)) /\
     l = firstn n provisioned
         ++ [ Performed a (Threw e); ConsoleError "Scraping error:" e;
              Performed Close closed ] /\
     reply = reply_after_close isProduction e closed)
  \/
  (exists s r s1 dl tail,
     browser s = true /\ dispatch q s = (r, s1, dl) /\
     l = provisioned ++ dl ++ tail /\
     match r with
     | Returned result =>
         (reply = Json200 result /\ tail = [Performed Close (Returned tt)])
         \/ (exists e closed,
               tail = [ Performed Close (Threw e);
                        ConsoleError "Scraping error:" e;
                        Performed Close closed ] /\
               reply = reply_after_close isProduction e closed)
     | Threw e =>
         exists closed,
           tail = [ ConsoleError "Scraping error:" e; Performed Close closed ] /\
           reply = reply_after_close isProduction e closed
     end).
Proof.
  unfold scrape_options, try_catch, try_block, catch_block, puppeteer_launch,
    browser_newPage, page_setUserAgent, page_setDefaultNavigationTimeout,
    page_goto, browser_close, get_browser, console_error.
  unfold bind, act, ret. cbn -[dispatch].
  destruct (perform Launch w) as [[[]|e0] w0] eqn:E0; cbn -[dispatch].
  2:{ intros E; injection E as <- <- <-. left. now exists e0. }
  run_call.
  2:{ run_call; intros E; injection E as <- <- <-; right; left;
      eexists 1, _, _, _; (split; [lia|]); (split; [reflexivity|]);
      split; reflexivity. }
  run_call.
  2:{ run_call; intros E; injection E as <- <- <-; right; left;
      eexists 2, _, _, _; (split; [lia|]); (split; [reflexivity|]);
      split; reflexivity. }
  run_call.
  2:{ run_call; intros E; injection E as <- <- <-; right; left;
      eexists 3, _, _, _; (split; [lia|]); (split; [reflexivity|]);
      split; reflexivity. }
  run_call.
  2:{ run_call; intros E; injection E as <- <- <-; right; left;
      eexists 4, _, _, _; (split; [lia|]); (split; [reflexivity|]);
      split; reflexivity. }
  match goal with |- context [dispatch q ?s0] =>
    destruct (dispatch q s0) as [[[result|e] s1] dl] eqn:Ed;
    assert (Bs : browser s1 = true)
      by (pose proof Ed as Ed'; rewrite dispatch_plan in Ed';
          now apply walk_read_run in Ed' as [-> _]);
    cbn -[dispatch]; rewrite ?Bs
  end.
  - repeat run_call; intros E; injection E as <- <- <-; right; right;
      eexists _, _, _, _, _; (split; [|split; [exact Ed|]]); try reflexivity;
      (split; [cbn; rewrite <- ?app_assoc; reflexivity|]).
    + left. auto.
    + right. now exists message, (Returned tt).
    + right. now eexists message, (Threw _).
  - repeat run_call; intros E; injection E as <- <- <-; right; right;
      eexists _, _, _, _, _; (split; [|split; [exact Ed|]]); try reflexivity;
      (split; [cbn; rewrite <- ?app_assoc; reflexivity|]).
    + now exists (Returned tt).
    + now eexists (Threw _).
Qed.

End Whole.

Lemma advance_shape_inner trigger v target r l :
  advance_shape trigger v target r l -> forallb inner l = true.
Proof. intros []; try destruct found; reflexivity. Qed.

Lemma read_shape_inner field r l :
  read_shape field r l -> forallb inner l = true.
Proof. intros []; reflexivity. Qed.

Lemma inner_not_close l : forallb inner l = true -> filter is_close l = [].
Proof.
  induction l as [|e l IH]; [reflexivity|].
  cbn. intros [I R]%andb_prop. rewrite (IH R).
  destruct e as [[] ?| | | |]; cbn in *; congruence.
Qed.

Lemma inner_not_launch l o :
  forallb inner l = true -> ~ In (Performed Launch o) l.
Proof.
  induction l as [|e l IH]; [auto|].
  cbn. intros [I R]%andb_prop [->|J]; [cbn in I; discriminate|exact (IH R J)].
Qed.

Section Inner.

Context {W : Type} `{Puppeteer W}.

Lemma advance_all_inner (l0 : list Step) (s : St W) r s' l :
  advance_all l0 s = (r, s', l) -> forallb inner l = true.
Proof.
  revert s r s' l. induction l0 as [|[[trigger v] target] rest IH]; intros s r s' l.
  - cbn. unfold ret. now intros [= <- <- <-].
  - cbn [advance_all]. unfold bind at 1.
    destruct (waitForDropdownUpdate trigger v target s) as [[[[]|e] s1] l1] eqn:E1;
      apply advance_shapes in E1 as [S1 _]; apply advance_shape_inner in S1.
    + destruct (advance_all rest s1) as [[r2 s2] l2] eqn:E2.
      intros [= <- <- <-]. rewrite forallb_app, S1. eauto.
    + now intros [= <- <- <-].
Qed.

Lemma dispatch_inner (q : Query) (s : St W) r s' l :
  dispatch q s = (r, s', l) -> forallb inner l = true.
Proof.
  rewrite dispatch_plan. unfold bind at 1.
  destruct (advance_all (plan q) s) as [[[[]|e] s1] l1] eqn:E1;
    apply advance_all_inner in E1.
  - destruct (read_stage (length (plan q)) s1) as [[r2 s2] l2] eqn:E2.
    intros [= <- <- <-]. apply read_stage_run in E2 as (r0 & S2 & _).
    rewrite forallb_app, E1. eauto using read_shape_inner.
  - now intros [= <- <- <-].
Qed.

End Inner.

Lemma prepared_calls n a :
  1 <= n <= 4 ->
  nth_error provisioned n = Some (Performed a (Returned tt)) ->
  (forall r, touches_form (Performed a r) = false) /\
  (forall r, is_close (Performed a r) = false) /\
  (forall r, selections [Performed a r] = []) /\
  (forall r, Performed a r <> Performed Launch r) /\
  forallb calm (firstn n provisioned) = true /\
  existsb rejected (firstn n provisioned) = false /\
  filter is_close (firstn n provisioned) = [] /\
  selections (firstn n provisioned) = [] /\
  (forall e, ~ In (Performed Launch (Threw e)) (firstn n provisioned)).
Proof.
  intros N E.
  destruct n as [|[|[|[|[|n]]]]]; try lia; cbn in E; injection E as <-;
    cbn; repeat split; try discriminate; auto;
    intros e J; intuition discriminate.
Qed.

(** X1.  The handler closes every browser it launched.  When the launch
    rejects, [browser.close()] is never called and the reply is the 500 body
    with the launch error.  When the launch resolves, the last call of the
    run is [browser.close()]; it is called once, or, when the close that
    ends the [try] block rejects, a second time from the [catch] block. *)
Theorem X1_launched_browser_is_closed
    {W : Type} `{Puppeteer W} (isProduction : bool) (q : Query) (w : W)
    reply w' l :
  scrape_options isProduction q w = (reply, w', l) ->
  (forall e,
     In (Performed Launch (Threw e)) l ->
     filter is_close l = [] /\ reply = Json500 (error_body isProduction e)) /\
  (In (Performed Launch (Returned tt)) l ->
   exists before o,
     l = before ++ [Performed Close o] /\
     (filter is_close l = [Performed Close o]
      \/ exists e, filter is_close l
                   = [Performed Close (Threw e); Performed Close o])).
Proof.
  intros R.
  apply handler_cases in R as [(e & -> & ->)|
    [(n & a & e & closed & N & A & -> & ->)|
     (s & r & s1 & dl & tail & _ & Ed & -> & R)]].
  - split.
    + intros e' [[= <-]|[[=]|[]]]. auto.
    + intros [[=]|[[=]|[]]].
  - destruct (prepared_calls n a N A) as (_ & NC & _ & NL & _ & _ & FC & _ & NT).
    split.
    + intros e' [J|[J|[J|[J|[]]]]]%in_app_or; try discriminate.
      * now apply NT in J.
      * injection J as -> _. now destruct (NL (Threw e)).
    + intros _.
      exists (firstn n provisioned
              ++ [Performed a (Threw e); ConsoleError "Scraping error:" e]), closed.
      rewrite <- app_assoc. split; [reflexivity|]. left.
      rewrite filter_app, FC. cbn [filter app].
      now rewrite (NC (Threw e)).
  - pose proof (dispatch_inner _ _ _ _ _ Ed) as I.
    pose proof (inner_not_close _ I) as FC.
    split.
    + intros e' [J|[J|J]%in_app_or]%in_app_or.
      * cbn in J. intuition discriminate.
      * now apply inner_not_launch in J.
      * exfalso. destruct r.
        -- destruct R as [[_ ->]|(e & closed & -> & _)]; cbn in J;
             intuition discriminate.
        -- destruct R as (closed & -> & _). cbn in J. intuition discriminate.
    + intros _. rewrite !filter_app, FC. destruct r as [result|e].
      * destruct R as [[_ ->]|(e & closed & -> & _)].
        -- exists (provisioned ++ dl), (Returned tt).
           rewrite <- app_assoc. split; [reflexivity|]. now left.
        -- exists (provisioned ++ dl ++ [Performed Close (Threw e);
                                         ConsoleError "Scraping error:" e]), closed.
           rewrite <- !app_assoc. split; [reflexivity|]. right. now exists e.
      * destruct R as (closed & -> & _).
        exists (provisioned ++ dl ++ [ConsoleError "Scraping error:" e]), closed.
        rewrite <- !app_assoc. split; [reflexivity|]. now left.
Qed.

Lemma X1_witness :
  exists before o,
    snd (scrape_options false
           (mkQuery Js.Undefined Js.Undefined Js.Undefined Js.Undefined Js.Undefined)
           (Mock.fresh Mock.quick_form))
    = before ++ [Performed Close o].
Proof.
  destruct (scrape_options false
              (mkQuery Js.Undefined Js.Undefined Js.Undefined Js.Undefined Js.Undefined)
              (Mock.fresh Mock.quick_form)) as [[reply w'] l] eqn:E.
  assert (I : In (Performed Launch (Returned tt)) l).
  { vm_compute in E. injection E as _ _ <-. now left. }
  destruct (proj2 (X1_launched_browser_is_closed _ _ _ _ _ _ E) I)
    as (before & o & -> & _).
  now exists before, o.
Defined.

(** X2.  The form is touched only on a loaded page: a run in which any
    call selects, waits on, queries or enumerates a field begins with the
    launch, the new page, the user agent, the navigation timeout and the
    navigation, all five resolved. *)
Theorem X2_form_is_touched_after_page_load
    {W : Type} `{Puppeteer W} (isProduction : bool) (q : Query) (w : W)
    reply w' l :
  scrape_options isProduction q w = (reply, w', l) ->
  existsb touches_form l = true ->
  exists rest, l = provisioned ++ rest.
Proof.
  intros R T.
  apply handler_cases in R as [(e & -> & ->)|
    [(n & a & e & closed & N & A & -> & ->)|
     (s & r & s1 & dl & tail & _ & Ed & -> & R)]].
  - discriminate.
  - exfalso.
    destruct (prepared_calls n a N A) as (Ta & _ & _ & _ & C & _).
    rewrite existsb_app in T. apply orb_prop in T as [T|T].
    + apply existsb_exists in T as (x & I & Tx).
      rewrite forallb_forall in C. apply C in I. unfold calm in I.
      rewrite Tx in I. discriminate.
    + cbn [existsb] in T. rewrite (Ta (Threw e)) in T. discriminate.
  - now exists (dl ++ tail).
Qed.

Lemma X2_witness :
  exists rest,
    snd (scrape_options false
           (mkQuery (Js.Str "1") Js.Undefined Js.Undefined Js.Undefined Js.Undefined)
           (Mock.fresh Mock.quick_form))
    = provisioned ++ rest.
Proof.
  destruct (scrape_options false
              (mkQuery (Js.Str "1") Js.Undefined Js.Undefined Js.Undefined Js.Undefined)
              (Mock.fresh Mock.quick_form)) as [[reply w'] l] eqn:E.
  apply (X2_form_is_touched_after_page_load _ _ _ _ _ _ E).
  vm_compute in E. injection E as _ _ <-. reflexivity.
Defined.

Lemma plan_is_beginning q :
  plan q = firstn (length (plan q)) (all_steps q) /\ length (plan q) <= 5.
Proof.
  unfold plan. destruct (0 <? depth q)%nat.
  - rewrite length_steps. split; [reflexivity|apply depth_le].
  - destruct (contiguous q); cbn; (split; [reflexivity|lia]).
Qed.

(** X3.  Whatever the request and whatever the browser answers, the
    selections of a run are a beginning of the chain: Make with [makeId],
    then Model with [modelId], Year with [yearId], Country with [countryId],
    Fuel with [fuelId].  No field is selected twice or out of order, and the
    Engine field is never selected. *)
Theorem X3_selections_follow_the_chain
    {W : Type} `{Puppeteer W} (isProduction : bool) (q : Query) (w : W) :
  exists n,
    n <= 5 /\
    selections (snd (scrape_options isProduction q w)) =
      firstn n [ ("#MainContent_ddlMake", makeId q);
                 ("#MainContent_ddlModel", modelId q);
                 ("#MainContent_ddlYear", yearId q);
                 ("#MainContent_ddlCountry", countryId q);
                 ("#MainContent_ddlFuel", fuelId q) ].
Proof.
  destruct (scrape_options isProduction q w) as [[reply w'] l] eqn:R.
  cbn [snd].
  change [ ("#MainContent_ddlMake", makeId q); ("#MainContent_ddlModel", modelId q);
           ("#MainContent_ddlYear", yearId q); ("#MainContent_ddlCountry", countryId q);
           ("#MainContent_ddlFuel", fuelId q) ]
    with (map step_selection (all_steps q)).
  apply handler_cases in R as [(e & -> & ->)|
    [(n & a & e & closed & N & A & -> & ->)|
     (s & r & s1 & dl & tail & _ & Ed & -> & R)]].
  - exists 0. split; [lia|reflexivity].
  - destruct (prepared_calls n a N A) as (_ & _ & Sa & _ & _ & _ & _ & S0 & _).
    exists 0. split; [lia|]. rewrite selections_app, S0.
    change [Performed a (Threw e); ConsoleError "Scraping error:" e;
            Performed Close closed]
      with ([Performed a (Threw e)]
            ++ [ConsoleError "Scraping error:" e; Performed Close closed]).
    now rewrite selections_app, Sa.
  - assert (St : selections tail = []).
    { destruct r.
      - destruct R as [[_ ->]|(e & closed & -> & _)]; reflexivity.
      - destruct R as (closed & -> & _). reflexivity. }
    rewrite !selections_app, St, app_nil_r. cbn [selections provisioned app].
    clear R St. rewrite dispatch_plan in Ed.
    destruct (plan_is_beginning q) as (Pq & Lq).
    apply walk_read_run in Ed as (_ & Ed). destruct r as [result|e].
    + destruct Ed as (walk & raw & -> & Sel & _).
      exists (length (plan q)). split; [exact Lq|].
      rewrite selections_app, Sel, firstn_map, <- Pq. cbn. apply app_nil_r.
    + destruct Ed as (_ & [(n & t & v & g & Hn & Sel & _)|(Sel & _)]).
      * assert (n < length (plan q)) by (apply nth_error_Some; congruence).
        exists (S n). split; [lia|].
        rewrite Sel, Pq, firstn_firstn, firstn_map.
        now replace (Nat.min (S n) (length (plan q))) with (S n) by lia.
      * exists (length (plan q)). split; [exact Lq|].
        now rewrite Sel, firstn_map, <- Pq.
Qed.

Lemma first_rejection_app l1 l2 :
  first_rejection (l1 ++ l2) =
  if existsb rejected l1 then first_rejection l1 else first_rejection l2.
Proof.
  induction l1 as [|e l1 IH]; [reflexivity|].
  destruct e as [a [|]|x y [|]|x [|]|x [|]|]; cbn; auto.
Qed.

Lemma console_causes_app l1 l2 :
  console_causes (l1 ++ l2) = console_causes l1 ++ console_causes l2.
Proof.
  induction l1 as [|e l1 IH]; [reflexivity|].
  destruct e; cbn; rewrite ?IH; reflexivity.
Qed.

Lemma advance_shape_cause trigger v target r l :
  advance_shape trigger v target r l ->
  match r with
  | Returned _ => first_rejection l = None /\ console_causes l = []
  | Threw _ =>
      exists cause,
        first_rejection l = Some cause /\
        In (ConsoleError (failure_line trigger target) cause) l
  end.
Proof.
  intros []; try destruct found; cbn; auto; exists e; auto 10.
Qed.

Lemma settled_logs_clean (l0 : list Step) logs :
  Forall2 settled_step l0 logs ->
  existsb rejected (concat logs) = false /\ console_lines (concat logs) = [].
Proof.
  induction 1 as [|st log l0 logs S _ [IHr IHc]]; [auto|].
  apply advance_shape_log in S as (_ & Rej & Con & _).
  cbn [concat]. now rewrite existsb_app, console_lines_app, Rej, Con, IHr, IHc.
Qed.

Lemma first_rejection_none l : existsb rejected l = false -> first_rejection l = None.
Proof.
  induction l as [|e l IH]; [reflexivity|].
  destruct e as [a [|]|x y [|]|x [|]|x [|]|]; cbn; auto; discriminate.
Qed.

Lemma read_shape_cause field e l :
  read_shape field (Threw e) l -> first_rejection l = Some e.
Proof. intros S. inversion S; reflexivity. Qed.

Lemma advance_shape_threw trigger v target e l :
  advance_shape trigger v target (Threw e) l -> e = failure_message target v.
Proof. intros S. now apply advance_shape_log in S as (_ & -> & _). Qed.

Section Places.

Context {W : Type} `{Puppeteer W}.

(** A walk that throws: the steps before the failing one returned, one
    after the other, and the failing step's driver run is the rest. *)
Lemma advance_all_stops (l0 : list Step) (s : St W) e s' l :
  advance_all l0 s = (Threw e, s', l) ->
  exists n trigger v target logs dlog,
    nth_error l0 n = Some (trigger, v, target) /\
    Forall2 settled_step (firstn n l0) logs /\
    advance_shape trigger v target (Threw e) dlog /\
    l = concat logs ++ dlog.
Proof.
  revert s s' l. induction l0 as [|[[trigger v] target] rest IH]; intros s s' l.
  - cbn. unfold ret. discriminate.
  - cbn [advance_all]. unfold bind at 1.
    destruct (waitForDropdownUpdate trigger v target s) as [[[[]|e1] s1] l1] eqn:E1;
      apply advance_shapes in E1 as [S1 _].
    + destruct (advance_all rest s1) as [[[[]|e2] s2] l2] eqn:E2; [discriminate|].
      intros [= <- <- <-].
      apply IH in E2 as (n & t & v2 & g & logs & dlog & Hn & F & Sd & ->).
      exists (S n), t, v2, g, (l1 :: logs), dlog.
      split; [exact Hn|]. split; [now constructor|]. split; [exact Sd|].
      cbn [concat]. now rewrite app_assoc.
    + intros [= <- <- <-].
      exists 0, trigger, v, target, [], l1.
      split; [reflexivity|]. split; [constructor|]. split; [exact S1|reflexivity].
Qed.

(** Where a walk followed by a read throws: inside a driver invocation, or
    inside the read after every step has returned. *)
Lemma walk_read_stops (l0 : list Step) (k : nat) (s : St W) e s' l :
  bind (advance_all l0) (fun _ => read_stage k) s = (Threw e, s', l) ->
  (exists n trigger v target logs dlog,
     nth_error l0 n = Some (trigger, v, target) /\
     Forall2 settled_step (firstn n l0) logs /\
     advance_shape trigger v target (Threw e) dlog /\
     l = concat logs ++ dlog)
  \/
  (exists logs rlog,
     Forall2 settled_step l0 logs /\
     read_shape (nth k stages "") (Threw e) rlog /\
     l = concat logs ++ rlog).
Proof.
  unfold bind at 1.
  destruct (advance_all l0 s) as [[[[]|e1] s1] l1] eqn:E1.
  - destruct (read_stage k s1) as [[r2 s2] l2] eqn:E2.
    intros [= -> <- <-]. right.
    apply advance_all_logs in E1 as (logs & -> & F).
    apply read_stage_run in E2 as (r0 & S0 & E0).
    destruct r0 as [opts|e0]; [discriminate|]. injection E0 as ->.
    now exists logs, l2.
  - intros [= <- <- <-]. left. now apply advance_all_stops in E1.
Qed.

End Places.




(** X7.  What the 500 body reports, by the call that rejected first.
    When that call was made by the Selection Driver (the run is the page
    load, the driver invocations that returned, and the log of an invocation
    that threw), [details] is the driver's own message for that stage, and
    the browser's message is only the cause in the driver's console line.
    When it was made by the option reader, or was the launch, one of the
    calls that prepare the page or the close, none of which touches the
    form, [details] is the message of that call as the browser gave it. *)
Theorem X7_details_report_the_first_rejection
    {W : Type} `{Puppeteer W} (isProduction : bool) (q : Query) (w : W)
    reply w' l body :
  scrape_options isProduction q w = (reply, w', l) ->
  reply = Json500 body ->
  exists cause,
    first_rejection l = Some cause /\
    ((exists n trigger v target logs dlog,
        nth_error (plan q) n = Some (trigger, v, target) /\
        Forall2 settled_step (firstn n (plan q)) logs /\
        advance_shape trigger v target (Threw (failure_message target v)) dlog /\
        first_rejection dlog = Some cause /\
        In (ConsoleError (failure_line trigger target) cause) dlog /\
        l = provisioned ++ concat logs ++ dlog
            ++ [ ConsoleError "Scraping error:" (failure_message target v);
                 Performed Close (Returned tt) ] /\
        details body = failure_message target v)
     \/
     (exists logs rlog,
        Forall2 settled_step (plan q) logs /\
        read_shape (nth (length (plan q)) stages "") (Threw cause) rlog /\
        l = provisioned ++ concat logs ++ rlog
            ++ [ ConsoleError "Scraping error:" cause;
                 Performed Close (Returned tt) ] /\
        details body = cause)
     \/
     (exists before a after,
        l = before
            ++ Performed a (Threw cause) :: ConsoleError "Scraping error:" cause
               :: after /\
        existsb rejected before = false /\
        touches_form (Performed a (Threw cause)) = false /\
        details body = cause)).
Proof.
  intros R ->.
  apply handler_cases in R as [(e & -> & [= ->])|
    [(n & a & e & closed & N & A & -> & R)|
     (s & r & s1 & dl & tail & _ & Ed & -> & R)]].
  - exists e. split; [reflexivity|]. right; right.
    exists [], Launch, []. repeat split.
  - destruct closed as [[]|]; [|discriminate]. injection R as ->.
    destruct (prepared_calls n a N A) as (Ta & _ & _ & _ & _ & Rej & _).
    exists e. rewrite first_rejection_app, Rej. split; [reflexivity|].
    right; right.
    exists (firstn n provisioned), a, [Performed Close (Returned tt)].
    repeat split; auto.
  - assert (P1 : existsb rejected provisioned = false) by reflexivity.
    rewrite first_rejection_app, P1.
    pose proof Ed as Ed'. rewrite dispatch_plan in Ed'.
    destruct r as [result|e].
    + pose proof (walk_read_run _ _ _ _ _ _ Ed') as (_ & walk & raw & _ & _ & Rej & _).
      destruct R as [[[=] _]|(e & closed & -> & R)].
      destruct closed as [[]|]; [|discriminate]. injection R as ->.
      exists e. rewrite first_rejection_app, Rej. split; [reflexivity|].
      right; right.
      exists (provisioned ++ dl), Close, [Performed Close (Returned tt)].
      rewrite <- app_assoc, existsb_app, P1, Rej. repeat split.
    + destruct R as (closed & -> & R).
      destruct closed as [[]|]; [|discriminate]. injection R as ->.
      apply walk_read_stops in Ed' as
        [(n & t & v & g & logs & dlog & Hn & F & S & ->)|
         (logs & rlog & F & S & ->)].
      * pose proof (advance_shape_threw _ _ _ _ _ S) as ->.
        destruct (settled_logs_clean _ _ F) as (Rej & _).
        destruct (advance_shape_cause _ _ _ _ _ S) as (cause & Fc & C).
        pose proof (advance_shape_log _ _ _ _ _ S) as (_ & _ & Rd & _).
        exists cause. split.
        { rewrite <- app_assoc, first_rejection_app, Rej, first_rejection_app, Rd.
          exact Fc. }
        left. exists n, t, v, g, logs, dlog.
        rewrite <- app_assoc. repeat split; auto.
      * destruct (settled_logs_clean _ _ F) as (Rej & _).
        pose proof (read_shape_cause _ _ _ S) as Fc.
        pose proof (read_shape_log _ _ _ S) as (_ & _ & _ & Rd).
        exists e. split.
        { rewrite <- app_assoc, first_rejection_app, Rej, first_rejection_app, Rd.
          exact Fc. }
        right; left. exists logs, rlog.
        rewrite <- app_assoc. repeat split; auto.
Qed.

Lemma X7_witness :
  exists cause,
    first_rejection
      (snd (scrape_options false
              (mkQuery (Js.Str "7") Js.Undefined Js.Undefined Js.Undefined Js.Undefined)
              (Mock.fresh Mock.hung_form))) = Some cause.
Proof.
  destruct (scrape_options false
              (mkQuery (Js.Str "7") Js.Undefined Js.Undefined Js.Undefined Js.Undefined)
              (Mock.fresh Mock.hung_form)) as [[reply w'] l] eqn:E.
  assert (Er : reply = Json500 (error_body false
                 "Failed to load #MainContent_ddlModel after selecting 7")).
  { vm_compute in E. now injection E as <- _ _. }
  destruct (X7_details_report_the_first_rejection _ _ _ _ _ _ _ E Er)
    as (cause & F & _).
  now exists cause.
Defined.

(** X4.  What a 200 reply holds.  It has one property, and the request
    alone fixes which: the options are those of the field that follows the
    selections made, [makes] after none, [models] after one, and so on up
    to [engines] after five, enumerated from that field in this run; the
    selections made are those of the branch the request is served by. *)
Theorem X4_reply_holds_the_next_stage
    {W : Type} `{Puppeteer W} (isProduction : bool) (q : Query) (w : W)
    reply w' l result :
  scrape_options isProduction q w = (reply, w', l) ->
  reply = Json200 result ->
  selections l = map step_selection (plan q) /\
  length (selections l) <= 5 /\
  In (reply_property q) properties /\
  reply_property q = nth (length (selections l)) properties "" /\
  exists raw,
    In (ev_options (nth (length (selections l)) stages "") (Returned raw)) l /\
    result = [(reply_property q, option_set raw)].
Proof.
  intros R ->.
  apply handler_cases in R as [(e & _ & [=])|
    [(n & a & e & closed & _ & _ & _ & R)|
     (s & r & s1 & dl & tail & _ & Ed & -> & R)]].
  - destruct closed; discriminate.
  - rewrite dispatch_plan in Ed. apply walk_read_run in Ed as (_ & Ed).
    destruct (plan_is_beginning q) as (_ & Lq).
    destruct r as [res|e].
    2:{ destruct R as (closed & _ & R). destruct closed; discriminate. }
    destruct R as [[[= <-] ->]|(e & closed & _ & R)].
    2:{ destruct closed; discriminate. }
    destruct Ed as (walk & raw & -> & Sel & _ & _ & ->).
    assert (S : selections (provisioned
                  ++ (walk ++ [ ev_enabled (nth (length (plan q)) stages "") (Returned tt);
                                ev_options (nth (length (plan q)) stages "") (Returned raw) ])
                  ++ [Performed Close (Returned tt)])
                = map step_selection (plan q)).
    { rewrite !selections_app, Sel. cbn. now rewrite !app_nil_r. }
    rewrite S, length_map. unfold reply_property.
    split; [reflexivity|]. split; [exact Lq|]. split.
    + apply nth_In. cbn. lia.
    + split; [reflexivity|]. exists raw. split; [|reflexivity].
      apply in_or_app. right. apply in_or_app. left. apply in_or_app. right.
      cbn. auto.
Qed.

Lemma X4_witness :
  exists raw,
    fst (fst (scrape_options false
                (mkQuery (Js.Str "1") (Js.Str "5") Js.Undefined Js.Undefined Js.Undefined)
                (Mock.fresh Mock.quick_form)))
    = Json200 [("years", option_set raw)].
Proof.
  destruct (scrape_options false
              (mkQuery (Js.Str "1") (Js.Str "5") Js.Undefined Js.Undefined Js.Undefined)
              (Mock.fresh Mock.quick_form)) as [[reply w'] l] eqn:E.
  assert (Er : reply = Json200 [("years", [mkOption "2020" "2020"])]).
  { vm_compute in E. now injection E as <- _ _. }
  destruct (X4_reply_holds_the_next_stage _ _ _ _ _ _ _ E Er)
    as (_ & _ & _ & _ & raw & _ & Res).
  exists raw. cbn [fst]. rewrite Er. f_equal. exact Res.
Defined.

(** X5.  Production mode changes the suggestion of the error body and
    nothing else: the same calls are made, the world ends the same, a 200
    reply is the same, and a 500 body has the same error and details. *)
Theorem X5_production_changes_the_suggestion_only
    {W : Type} `{Puppeteer W} (q : Query) (w : W) :
  snd (scrape_options true q w) = snd (scrape_options false q w) /\
  snd (fst (scrape_options true q w)) = snd (fst (scrape_options false q w)) /\
  without_suggestion (fst (fst (scrape_options true q w)))
    = without_suggestion (fst (fst (scrape_options false q w))) /\
  (forall result,
     fst (fst (scrape_options true q w)) = Json200 result <->
     fst (fst (scrape_options false q w)) = Json200 result).
Proof.
  unfold scrape_options, try_catch.
  destruct (try_block q (mkSt w false)) as [[[r|e] s1] l1]; [now auto|].
  unfold catch_block, console_error, get_browser, browser_close, act, bind, ret.
  cbn. destruct (browser s1); cbn.
  - destruct (perform Close (world s1)) as [[[]|e2] w2]; cbn;
      repeat split; auto; discriminate.
  - repeat split; auto; discriminate.
Qed.

(** X6.  Identifiers after the first missing one are not looked at once
    Make is supplied: two requests with the same number [d > 0] of leading
    identifiers, and the same first [d] identifiers, are served alike, call
    for call and reply for reply. *)
Theorem X6_identifiers_after_the_gap_are_ignored
    {W : Type} `{Puppeteer W} (isProduction : bool) (q q' : Query) (w : W) :
  0 < depth q ->
  depth q' = depth q ->
  firstn (depth q) (identifiers q') = firstn (depth q) (identifiers q) ->
  scrape_options isProduction q' w = scrape_options isProduction q w.
Proof.
  intros D D' I. apply scrape_options_ext. intros s.
  rewrite !dispatch_plan, !plan_prefix by lia.
  assert (S : steps q' = steps q).
  { unfold steps. rewrite D'. unfold all_steps.
    destruct q as [a b c d e], q' as [a' b' c' d' e'].
    unfold identifiers in *. cbn [makeId modelId yearId countryId fuelId] in *.
    clear D'. revert D I. generalize (depth (mkQuery a b c d e)). intros n D I.
    destruct n as [|[|[|[|[|n]]]]]; [lia|..]; cbn in I |- *;
      injection I; intros; subst; reflexivity. }
  now rewrite S.
Qed.

Lemma X6_witness :
  scrape_options false
    (mkQuery (Js.Str "1") Js.Undefined (Js.Str "2") Js.Undefined (Js.Str "x"))
    (Mock.fresh Mock.quick_form)
  = scrape_options false
      (mkQuery (Js.Str "1") Js.Undefined Js.Undefined Js.Undefined Js.Undefined)
      (Mock.fresh Mock.quick_form).
Proof.
  apply X6_identifiers_after_the_gap_are_ignored.
  - apply Nat.ltb_lt. reflexivity.
  - reflexivity.
  - reflexivity.
Defined.

Section Mirror.

Context {W : Type} (P : Puppeteer W).

Lemma mirrors_ret {A} (a : A) : mirrors (W := W) (ret a) (ret a).
Proof. intros s. reflexivity. Qed.

Lemma mirrors_throw {A} e : mirrors (W := W) (A := A) (throw e) (throw e).
Proof. intros s. reflexivity. Qed.

Lemma mirrors_bind {A B} (m' m : M W A) (k' k : A -> M W B) :
  mirrors m' m -> (forall a, mirrors (k' a) (k a)) ->
  mirrors (bind m' k') (bind m k).
Proof.
  intros Hm Hk s. unfold bind. rewrite Hm.
  destruct (m s) as [[[a|e] s1] l1]; [|reflexivity].
  rewrite Hk. destruct (k a s1) as [[r s2] l2]. now rewrite map_app.
Qed.

Lemma mirrors_try_catch {A} (m' m : M W A) (h' h : string -> M W A) :
  mirrors m' m -> (forall e, mirrors (h' e) (h e)) ->
  mirrors (try_catch m' h') (try_catch m h).
Proof.
  intros Hm Hh s. unfold try_catch. rewrite Hm.
  destruct (m s) as [[[a|e] s1] l1]; [reflexivity|].
  rewrite Hh. destruct (h e s1) as [[r s2] l2]. now rewrite map_app.
Qed.

Lemma mirrors_act a : mirrors (@act W (swapped P) a) (@act W P a).
Proof.
  intros s. unfold act. cbn. now destruct (@perform W P a (world s)).
Qed.

Lemma mirrors_console line err :
  mirrors (W := W) (console_error line err) (console_error line err).
Proof. intros s. reflexivity. Qed.

Lemma mirrors_query sel :
  mirrors (@page_query W (swapped P) sel) (@page_query W P sel).
Proof.
  intros s. unfold page_query. cbn. now destruct (@query W P sel (world s)).
Qed.

Lemma mirrors_evalAll {A} sel (f : list RawOption -> A) :
  mirrors (@page_evalAll W (swapped P) A sel f) (@page_evalAll W P A sel f).
Proof.
  intros s. unfold page_evalAll. cbn.
  now destruct (@evalAll W P sel (world s)) as [[els|e] w1].
Qed.

(** The race itself answers differently; what follows it does not care. *)
Lemma mirrors_after_race {B} a b (k' k : M W B) :
  mirrors k' k ->
  mirrors (bind (@Promise_race W (swapped P) a b) (fun _ => k'))
          (bind (@Promise_race W P a b) (fun _ => k)).
Proof.
  intros Hk s. unfold bind, Promise_race. cbn.
  destruct (@race W P a b (world s)) as [[x|e] w1]; cbn; [|reflexivity].
  rewrite Hk. now destruct (k _) as [[r s2] l2].
Qed.

Lemma mirrors_driver trigger v target :
  mirrors (@waitForDropdownUpdate W (swapped P) trigger v target)
          (@waitForDropdownUpdate W P trigger v target).
Proof.
  unfold waitForDropdownUpdate.
  apply mirrors_try_catch.
  - apply mirrors_bind; [apply mirrors_act|intros _].
    apply mirrors_after_race.
    apply mirrors_bind; [apply mirrors_query|intros found].
    apply mirrors_bind; [|intros _; apply mirrors_act].
    destruct found; [apply mirrors_act|apply mirrors_ret].
  - intros e. apply mirrors_bind; [apply mirrors_console|intros _].
    apply mirrors_throw.
Qed.

Lemma mirrors_reader field :
  mirrors (@getSelectOptions W (swapped P) field) (@getSelectOptions W P field).
Proof.
  unfold getSelectOptions.
  apply mirrors_bind; [apply mirrors_act|intros _].
  apply mirrors_bind; [apply mirrors_evalAll|intros o]. apply mirrors_ret.
Qed.

Lemma mirrors_dispatch q :
  mirrors (@dispatch W (swapped P) q) (@dispatch W P q).
Proof.
  unfold dispatch.
  repeat match goal with
         | |- mirrors (if ?c then _ else _) _ => destruct c
         end;
    repeat first [ apply mirrors_ret
                 | apply mirrors_bind;
                   [ first [apply mirrors_driver | apply mirrors_reader] | intros ? ] ].
Qed.

Lemma mirrors_handler isProduction q :
  mirrors (try_catch (@try_block W (swapped P) q) (@catch_block W (swapped P) isProduction))
          (try_catch (@try_block W P q) (@catch_block W P isProduction)).
Proof.
  apply mirrors_try_catch.
  - unfold try_block, puppeteer_launch, browser_newPage, page_setUserAgent,
      page_setDefaultNavigationTimeout, page_goto, browser_close.
    apply mirrors_bind;
      [apply mirrors_bind; [apply mirrors_act|intros _; intros s; reflexivity]|intros _].
    do 4 (apply mirrors_bind; [apply mirrors_act|intros _]).
    apply mirrors_bind; [apply mirrors_dispatch|intros result].
    apply mirrors_bind; [apply mirrors_act|intros _]. apply mirrors_ret.
  - intros e. unfold catch_block, browser_close.
    apply mirrors_bind; [apply mirrors_console|intros _].
    apply mirrors_bind; [intros s; reflexivity|intros b].
    apply mirrors_bind; [|intros _; apply mirrors_ret].
    destruct b; [apply mirrors_act|apply mirrors_ret].
Qed.

End Mirror.

(** X10.  The winner of a race is never looked at.  Against a browser that
    answers every call as [P] does but reports the other promise as the
    winner of each race, the handler gives the same reply, leaves the world
    the same and makes the same calls; only the winners written in the log
    differ. *)
Theorem X10_race_winner_is_ignored
    {W : Type} (P : Puppeteer W) (isProduction : bool) (q : Query) (w : W) :
  @scrape_options W (swapped P) isProduction q w =
  (fst (fst (@scrape_options W P isProduction q w)),
   snd (fst (@scrape_options W P isProduction q w)),
   map swap_event (snd (@scrape_options W P isProduction q w))).
Proof.
  unfold scrape_options. rewrite (mirrors_handler P isProduction q).
  destruct (try_catch (@try_block W P q) (@catch_block W P isProduction)
              (mkSt w false)) as [[[r|e] s1] l1]; reflexivity.
Qed.

(** X8.  The reader's failures.  [getSelectOptions] never selects and never
    writes to the console.  When its wait for the enabled field rejects,
    the options are not enumerated; and when it throws, it throws the
    message of the one call that rejected, as the browser gave it. *)
Theorem X8_reader_passes_the_browser_error_on
    {W : Type} `{Puppeteer W} (field : string) (s : St W) :
  selections (snd (getSelectOptions field s)) = [] /\
  console_lines (snd (getSelectOptions field s)) = [] /\
  (forall e, In (ev_enabled field (Threw e)) (snd (getSelectOptions field s)) ->
             snd (getSelectOptions field s) = [ev_enabled field (Threw e)]) /\
  match fst (fst (getSelectOptions field s)) with
  | Returned _ => first_rejection (snd (getSelectOptions field s)) = None
  | Threw e => first_rejection (snd (getSelectOptions field s)) = Some e
  end.
Proof.
  destruct (getSelectOptions field s) as [[r s'] l] eqn:E. cbn [fst snd].
  apply read_shapes in E as [S _].
  destruct S as [e|e|raw]; cbn; repeat split; auto.
  - intros e' [[= <-]|[]]. reflexivity.
  - intros e' [[=]|[[=]|[]]].
  - intros e' [[=]|[[=]|[]]].
Qed.






Section Timing.

Import Mock.

Lemma first_time_first p from span t :
  from <= t < from + span ->
  (forall u, from <= u < t -> p u = false) -> p t = true ->
  first_time p from span = Some t.
Proof.
  revert from. induction span as [|k IH]; intros from T N P; [lia|].
  cbn. destruct (Nat.eq_dec from t) as [->|D].
  - now rewrite P.
  - rewrite N by lia. apply IH; [lia| |exact P]. intros u U. apply N. lia.
Qed.

Lemma first_time_some p from span t :
  first_time p from span = Some t -> from <= t < from + span /\ p t = true.
Proof.
  revert from. induction span as [|k IH]; intros from; [discriminate|].
  cbn. destruct (p from) eqn:F.
  - intros [= <-]. split; [lia|exact F].
  - intros E. apply IH in E as (T & P). split; [lia|exact P].
Qed.

(** What each call does to the clock of the stand-in browser. *)
Lemma mock_wait_clock x w r w1 :
  perform (WaitForSelector x) w = (r, w1) ->
  site w1 = site w /\ picked w1 = picked w /\
  clock w1 <= clock w + Z.to_nat (timeout x).
Proof.
  cbn. unfold settles, deadline.
  destruct (first_time _ _ _) as [t|] eqn:F; intros [= <- <-]; cbn.
  - apply first_time_some in F as (T & _). repeat split; lia.
  - repeat split; lia.
Qed.

Lemma mock_race_clock x y w r w1 :
  race x y w = (r, w1) ->
  site w1 = site w /\ picked w1 = picked w /\
  clock w1 <= clock w + Nat.max (Z.to_nat (timeout x)) (Z.to_nat (timeout y)).
Proof.
  cbn. unfold mock_race, settles, deadline.
  destruct (first_time (satisfied w x) _ _) as [a|] eqn:Fa;
    destruct (first_time (satisfied w y) _ _) as [b|] eqn:Fb;
    try (apply first_time_some in Fa as (Ta & _));
    try (apply first_time_some in Fb as (Tb & _));
    match goal with |- context [if ?c then _ else _] => destruct c end;
    intros [= <- <-]; cbn; repeat split; lia.
Qed.

Lemma mock_query_clock sel w r w1 :
  query sel w = (r, w1) ->
  site w1 = site w /\ picked w1 = picked w /\
  clock w1 = clock w + latency (site w).
Proof. cbn. unfold mock_query. intros [= <- <-]. cbn. auto. Qed.

Lemma mock_select_world sel v w r w1 :
  perform (Select sel v) w = (r, w1) ->
  w1 = match r with
       | Returned _ => mkWorld (site w) (picked w ++ [(sel, v)]) 0
       | Threw _ => w
       end.
Proof.
  cbn. destruct v as [|x]; [now intros [= <- <-]|].
  destruct (element _ _ _ _); now intros [= <- <-].
Qed.

(** X12.  An advance is bounded in time.  On the stand-in browser, however
    the page behaves: when [page.select] rejects, the driver leaves the page
    as it was and no time passes; when it resolves, that one selection is
    committed and the driver is back, returning or throwing, at most
    5000 + 15000 + 15000 ms plus the time of one [page.$] after it. *)
Theorem X12_advance_takes_bounded_time
    (st : Site) (p : Picked) (c : nat) (held : bool)
    (trigger : string) (v : Js.value) (target : string) :
  match fst (perform (Select trigger v) (mkWorld st p c)) with
  | Threw _ =>
      world (snd (fst (waitForDropdownUpdate trigger v target
                         (mkSt (mkWorld st p c) held))))
      = mkWorld st p c
  | Returned _ =>
      site (world (snd (fst (waitForDropdownUpdate trigger v target
                               (mkSt (mkWorld st p c) held))))) = st /\
      picked (world (snd (fst (waitForDropdownUpdate trigger v target
                                 (mkSt (mkWorld st p c) held)))))
      = p ++ [(trigger, v)] /\
      (Z.of_nat (clock (world (snd (fst (waitForDropdownUpdate trigger v target
                                           (mkSt (mkWorld st p c) held))))))
       <= 5000 + 15000 + 15000 + Z.of_nat (latency st))%Z
  end.
Proof.
  unfold waitForDropdownUpdate, try_catch, bind, page_select, page_waitForSelector,
    Promise_race, page_query, act, console_error, throw, ret.
  cbn [world browser].
  destruct (perform (Select trigger v) (mkWorld st p c)) as [[[]|e1] w1] eqn:E1;
    apply mock_select_world in E1; cbn [site picked clock] in E1; subst w1;
    cbv beta iota; cbn [world browser fst snd]; [|reflexivity].
  match goal with |- context [race ?a ?b ?w1] =>
    destruct (race a b w1) as [[b0|e2] w2] eqn:E2;
    apply mock_race_clock in E2 as (S2 & P2 & C2); cbn [timeout site picked clock] in *;
    cbv beta iota; cbn [world browser fst snd]
  end.
  2:{ repeat split; [assumption|assumption|lia]. }
  match goal with |- context [query ?a w2] =>
    destruct (query a w2) as [[found|e3] w3] eqn:E3;
    apply mock_query_clock in E3 as (S3 & P3 & C3); rewrite S2 in C3;
    cbv beta iota; cbn [world browser fst snd]
  end.
  2:{ repeat split; [congruence|congruence|lia]. }
  destruct found; cbv beta iota; cbn [world browser fst snd].
  - match goal with |- context [perform ?a w3] =>
      destruct (perform a w3) as [[[]|e4] w4] eqn:E4;
      apply mock_wait_clock in E4 as (S4 & P4 & C4); cbn [timeout] in C4;
      cbv beta iota; cbn [world browser fst snd]
    end.
    2:{ repeat split; [congruence|congruence|lia]. }
    match goal with |- context [perform ?a w4] =>
      destruct (perform a w4) as [[[]|e5] w5] eqn:E5;
      apply mock_wait_clock in E5 as (S5 & P5 & C5); cbn [timeout] in C5;
      cbv beta iota; cbn [world browser fst snd]
    end; (repeat split; [congruence|congruence|lia]).
  - match goal with |- context [perform ?a w3] =>
      destruct (perform a w3) as [[[]|e5] w5] eqn:E5;
      apply mock_wait_clock in E5 as (S5 & P5 & C5); cbn [timeout] in C5;
      cbv beta iota; cbn [world browser fst snd]
    end; (repeat split; [congruence|congruence|lia]).
Qed.


(** X11.  An indicator that stays displayed fails the advance.  On the
    stand-in browser, when nothing happens on the page before an instant
    [t0] of the race window, and the indicator is displayed from [t0] on
    and never hidden again, the driver throws after its 15000 ms wait on the
    indicator runs out, whatever the target field does from [t0] on: the
    target is never confirmed. *)
Theorem X11_stuck_indicator_fails_the_advance
    (st : Site) (p : Picked) (c : nat) (held : bool)
    (trigger x target : string) (t0 : nat) :
  element st p c trigger <> Missing ->
  t0 < Z.to_nat 5000 ->
  (forall t, t < t0 ->
     element st (p ++ [(trigger, Js.Str x)]) t "#MainContent_UpdateProgress1"
       <> Shown /\
     element st (p ++ [(trigger, Js.Str x)]) t (target +++ ":not([disabled])")
       = Missing) ->
  (forall t, t0 <= t ->
     element st (p ++ [(trigger, Js.Str x)]) t "#MainContent_UpdateProgress1"
       = Shown) ->
  waitForDropdownUpdate trigger (Js.Str x) target (mkSt (mkWorld st p c) held) =
    (Threw (failure_message target (Js.Str x)),
     mkSt (mkWorld st (p ++ [(trigger, Js.Str x)])
             (t0 + latency st + Z.to_nat 15000)) held,
     [ ev_select trigger (Js.Str x) (Returned tt);
       ev_race target (Returned First);
       ev_query (Returned true);
       ev_hidden (Threw (timed_out
                    (mkWait "#MainContent_UpdateProgress1" Hidden 15000)));
       ConsoleError (failure_line trigger target)
         (timed_out (mkWait "#MainContent_UpdateProgress1" Hidden 15000)) ]).
Proof.
  intros Htrig Ht0 Hbefore Hafter.
  set (p' := p ++ [(trigger, Js.Str x)]) in *.
  set (wi := mkWait "#MainContent_UpdateProgress1" Visible 5000).
  set (wt := mkWait (target +++ ":not([disabled])") Attached 5000).
  set (wh := mkWait "#MainContent_UpdateProgress1" Hidden 15000).
  assert (E1 : perform (Select trigger (Js.Str x)) (mkWorld st p c)
               = (Returned tt, mkWorld st p' 0)).
  { cbn. destruct (element st p c trigger); [congruence|reflexivity|reflexivity]. }
  assert (R1 : settles (mkWorld st p' 0) wi = Some t0).
  { apply first_time_first; [cbn; lia| |].
    - intros u U. unfold satisfied. cbn. apply holds_visible, Hbefore. lia.
    - unfold satisfied. cbn. now rewrite Hafter. }
  assert (E2 : race wi wt (mkWorld st p' 0) = (Returned First, mkWorld st p' t0)).
  { cbn [race mock_puppeteer]. unfold mock_race. rewrite R1.
    destruct (settles (mkWorld st p' 0) wt) as [b|] eqn:R2.
    - apply first_time_some in R2 as (_ & Pb). unfold satisfied in Pb. cbn in Pb.
      destruct (Nat.leb_spec t0 b) as [_|Lt]; [reflexivity|].
      destruct (Hbefore b Lt) as (_ & M). rewrite M in Pb. discriminate.
    - unfold deadline, wt. cbn [clock timeout Nat.add].
      destruct (Nat.leb_spec t0 (Z.to_nat 5000)); [reflexivity|lia]. }
  assert (E3 : query "#MainContent_UpdateProgress1" (mkWorld st p' t0)
               = (Returned true, mkWorld st p' (t0 + latency st))).
  { cbn. unfold mock_query. cbn. rewrite Hafter by lia. reflexivity. }
  assert (E4 : perform (WaitForSelector wh) (mkWorld st p' (t0 + latency st))
               = (Threw (timed_out wh),
                  mkWorld st p' (t0 + latency st + Z.to_nat 15000))).
  { cbn [perform mock_puppeteer mock_perform]. unfold settles.
    rewrite first_time_none; [reflexivity|].
    intros u U. unfold satisfied. cbn in *. rewrite Hafter by lia. reflexivity. }
  unfold waitForDropdownUpdate, try_catch, bind, page_select, page_waitForSelector,
    Promise_race, page_query, act, console_error, throw, ret.
  cbn [world browser]. rewrite E1. cbv beta iota. cbn [world browser].
  fold wi wt. rewrite E2. cbv beta iota. cbn [world browser].
  rewrite E3. cbv beta iota. cbn [world browser].
  fold wh. rewrite E4. reflexivity.
Qed.

Lemma X11_witness :
  fst (fst (waitForDropdownUpdate "#MainContent_ddlMake" (Js.Str "7")
              "#MainContent_ddlModel" (mkSt (fresh hung_form) true)))
  = Threw (failure_message "#MainContent_ddlModel" (Js.Str "7")).
Proof.
  unfold fresh.
  rewrite (X11_stuck_indicator_fails_the_advance hung_form [] 0 true
             "#MainContent_ddlMake" "7" "#MainContent_ddlModel" 20).
  - reflexivity.
  - vm_compute. discriminate.
  - apply Nat.ltb_lt. vm_compute. reflexivity.
  - intros t Ht.
    assert (L : Nat.leb 20 t = false) by (apply Nat.leb_gt; exact Ht).
    assert (L2 : Nat.leb 100 t = false) by (apply Nat.leb_gt; lia).
    unfold hung_form, form, form_element. cbn -[Nat.leb].
    rewrite L, L2. split; [discriminate|reflexivity].
  - intros t Ht. apply Nat.leb_le in Ht.
    unfold hung_form, form, form_element. cbn -[Nat.leb]. now rewrite Ht.
Defined.

End Timing.

(* ================================================================== *)
(** ** The CommonJS revision *)
(* ================================================================== *)

Section Revision0.

Context {W : Type} `{Puppeteer W}.

Ltac run_call :=
  match goal with
  | |- context [perform ?a ?w] => destruct (perform a w) as [[[]|?] ?] eqn:?
  | |- context [race ?a ?b ?w] => destruct (race a b w) as [[?|?] ?] eqn:?
  | |- context [query ?a ?w] => destruct (query a w) as [[[]|?] ?] eqn:?
  | |- context [evalAll ?a ?w] => destruct (evalAll a w) as [[?|?] ?] eqn:?
  end; cbn.

Ltac fin :=
  (split; [reflexivity|]); (split; [reflexivity|]);
  let e := fresh "e" in let E := fresh "E" in
  intros e E; try discriminate E; now injection E as <-.

(** X13.  The driver of the CommonJS revision differs from that of
    [server.js] in its timeouts only: each of its runs is a run of the
    shape the [server.js] driver has, with 2000 ms for 5000 and 10000 ms
    for 15000.  So it too stops at the first call that rejects and throws
    [Failed to load <target> after selecting <value>]. *)
Theorem X13_commonjs_driver_differs_in_timeouts_only
    trigger v target (s : St W) :
  exists l0,
    advance_shape trigger v target
      (fst (fst (Rev0.waitForDropdownUpdate trigger v target s))) l0 /\
    snd (Rev0.waitForDropdownUpdate trigger v target s) = map Rev0.retime l0 /\
    selections (snd (Rev0.waitForDropdownUpdate trigger v target s))
      = [(trigger, v)] /\
    (forall e,
       fst (fst (Rev0.waitForDropdownUpdate trigger v target s)) = Threw e ->
       e = failure_message target v).
Proof.
  unfold Rev0.waitForDropdownUpdate, try_catch, bind, page_select,
    page_waitForSelector, Promise_race, page_query, act, console_error, throw, ret.
  cbn.
  repeat run_call; eexists;
    first
      [ split; [eapply (settled _ _ _ _ true)|fin]
      | split; [eapply (settled _ _ _ _ false)|fin]
      | split; [eapply (stop_enabled _ _ _ _ true)|fin]
      | split; [eapply (stop_enabled _ _ _ _ false)|fin]
      | split; [eapply stop_hidden|fin]
      | split; [eapply stop_query|fin]
      | split; [eapply stop_race|fin]
      | split; [eapply stop_select|fin] ].
Qed.


(** X14.  Errors of the Models branch of the CommonJS revision.  For a
    request with Make and no Model, a rejected [page.select] is thrown on as
    it is, with no console line; once the selection has resolved, a rejection
    of any later call of the branch, the reading of the options included, is
    written to the console under [Model dropdown timeout:] and thrown as
    [Model dropdown didn't load after selecting make <makeId>. ...].  A run
    in which no call rejects returns the Model options under [models]. *)
Theorem X14_commonjs_models_branch_errors (q : Query) (s : St W) :
  guard_models q = true ->
  match fst (fst (Rev0.dispatch q s)) with
  | Returned result =>
      first_rejection (snd (Rev0.dispatch q s)) = None /\
      selections (snd (Rev0.dispatch q s)) = [("#MainContent_ddlMake", makeId q)] /\
      exists raw,
        In (ev_options "#MainContent_ddlModel" (Returned raw))
           (snd (Rev0.dispatch q s)) /\
        result = [("models", option_set raw)]
  | Threw e =>
      exists cause,
        first_rejection (snd (Rev0.dispatch q s)) = Some cause /\
        ((snd (Rev0.dispatch q s)
            = [ev_select "#MainContent_ddlMake" (makeId q) (Threw cause)] /\
          e = cause)
         \/
         (exists before,
            snd (Rev0.dispatch q s)
              = ev_select "#MainContent_ddlMake" (makeId q) (Returned tt)
                  :: before ++ [ConsoleError "Model dropdown timeout:" cause] /\
            e = Rev0.models_message (makeId q)))
  end.
Proof.
  destruct q as [a b c d e]. unfold guard_models, Rev0.dispatch.
  cbn [makeId modelId yearId countryId fuelId].
  destruct (Js.truthy a); [|discriminate]. destruct (Js.truthy b); [discriminate|].
  intros _. cbn [negb andb].
  unfold Rev0.getSelectOptions, try_catch, bind, page_select, page_waitForSelector,
    Promise_race, page_query, page_evalAll, act, console_error, throw, ret.
  cbn.
  repeat run_call.
  all: try (split; [reflexivity|]; split; [reflexivity|];
            eexists; split; [|reflexivity]; cbn; auto 12; fail).
  all: eexists; (split; [reflexivity|]).
  all: try (left; split; reflexivity).
  all: right;
    match goal with |- exists before, _ :: ?l = _ /\ _ =>
      exists (removelast l) end;
    split; reflexivity.
Qed.

End Revision0.

Lemma X14_witness :
  exists cause,
    first_rejection
      (snd (Rev0.dispatch
              (mkQuery (Js.Str "7") Js.Undefined Js.Undefined Js.Undefined Js.Undefined)
              (mkSt (Mock.fresh Mock.dead_form) true))) = Some cause /\
    fst (fst (Rev0.dispatch
                (mkQuery (Js.Str "7") Js.Undefined Js.Undefined Js.Undefined Js.Undefined)
                (mkSt (Mock.fresh Mock.dead_form) true)))
    = Threw (Rev0.models_message (Js.Str "7")).
Proof.
  pose proof (X14_commonjs_models_branch_errors
                (mkQuery (Js.Str "7") Js.Undefined Js.Undefined Js.Undefined Js.Undefined)
                (mkSt (Mock.fresh Mock.dead_form) true) eq_refl) as X.
  destruct (Rev0.dispatch _ _) as [[r s'] l] eqn:E. cbn [fst snd] in *.
  assert (Er : r = Threw (Rev0.models_message (Js.Str "7"))).
  { vm_compute in E. now injection E as <- _ _. }
  rewrite Er in X. destruct X as (cause & F & _).
  exists cause. now rewrite Er.
Defined.

(* ================================================================== *)
(** ** Finding the browser *)
(* ================================================================== *)

Section Finding.

Import Finder.

Context {V : Type} `{Host V}.

Lemma runs_app l1 l2 : runs (l1 ++ l2) = runs l1 ++ runs l2.
Proof.
  induction l1 as [|n l1 IH]; [reflexivity|].
  destruct n; cbn; rewrite ?IH; reflexivity.
Qed.

(** One turn of the loop: the candidate is probed once, and the turn ends
    the search exactly when the verdict on the answer is a path. *)
Lemma search_step (c : string) (rest : list string) (v : V) :
  exists r v1 said,
    execSync (probe c) v = (r, v1) /\
    runs said = [] /\
    match verdict c r with
    | Some p => search (c :: rest) v = (Returned p, v1, Ran (probe c) r :: said)
    | None =>
        search (c :: rest) v =
        (fst (fst (search rest v1)), snd (fst (search rest v1)),
         Ran (probe c) r :: said ++ snd (search rest v1))
    end.
Proof.
  unfold probe, verdict. cbn [search].
  unfold bind, try_catch, run, console_log, ret.
  destruct (includes_star c) eqn:S.
  - destruct (execSync (find_command c) v) as [[out|e] v1] eqn:E;
      cbv beta iota zeta.
    + destruct (Js.truthy (Js.Str (Js.trim out))) eqn:T; cbv beta iota zeta.
      * exists (Returned out), v1, [Logged ("Found Chrome at: " +++ Js.trim out)].
        cbv beta iota. rewrite T. auto.
      * exists (Returned out), v1, []. cbv beta iota. rewrite T.
        repeat split. now destruct (search rest v1) as [[r2 v2] l2].
    + exists (Threw e), v1, [Logged ("Chrome not found at: " +++ c)].
      repeat split. now destruct (search rest v1) as [[r2 v2] l2].
  - destruct (execSync (ls_command c) v) as [[out|e] v1] eqn:E;
      cbv beta iota zeta.
    + exists (Returned out), v1, [Logged ("Found Chrome at: " +++ c)]. auto.
    + exists (Threw e), v1, [Logged ("Chrome not found at: " +++ c)].
      repeat split. now destruct (search rest v1) as [[r2 v2] l2].
Qed.

(** The whole loop. *)
Lemma search_run (cands : list string) (v : V) r v' l :
  search cands v = (r, v', l) ->
  match r with
  | Returned p =>
      exists before c after downs out,
        cands = before ++ c :: after /\
        runs l = downs ++ [(probe c, out)] /\
        Forall2 turned_down before downs /\
        verdict c out = Some p
  | Threw e =>
      e = not_found /\
      exists downs, runs l = downs /\ Forall2 turned_down cands downs
  end.
Proof.
  revert v r v' l. induction cands as [|c rest IH]; intros v r v' l.
  - cbn. unfold throw. intros [= <- <- <-]. split; [reflexivity|].
    exists []. split; [reflexivity|constructor].
  - destruct (search_step c rest v) as (r1 & v1 & said & E1 & Q & St).
    destruct (verdict c r1) as [p|] eqn:Vd.
    + rewrite St. intros [= <- <- <-].
      exists [], c, rest, [], r1. cbn. rewrite Q. repeat split; auto.
    + rewrite St. destruct (search rest v1) as [[r2 v2] l2] eqn:E2.
      cbn [fst snd]. intros [= <- <- <-]. apply IH in E2.
      assert (D : turned_down c (probe c, r1)) by (split; auto).
      cbn [runs]. rewrite runs_app, Q. cbn [app].
      destruct r2 as [p|e].
      * destruct E2 as (before & c' & after & downs & out & -> & -> & F & Vo).
        exists (c :: before), c', after, ((probe c, r1) :: downs), out.
        repeat split; auto.
      * destruct E2 as (-> & downs & -> & F). split; [reflexivity|].
        exists ((probe c, r1) :: downs). split; [reflexivity|]. auto.
Qed.


Lemma turned_down_probes before downs :
  Forall2 turned_down before downs -> map fst downs = map probe before.
Proof.
  induction 1 as [|c cr before downs [P _] _ IH]; [reflexivity|].
  cbn. now rewrite P, IH.
Qed.

Lemma possiblePaths_split env :
  possiblePaths env =
  [ "/opt/render/.cache/puppeteer/chrome/linux-*/chrome";
    "/usr/bin/chromium-browser"; "/usr/bin/google-chrome"; "/usr/bin/chrome" ]
  ++ (if Js.truthy (CHROME_PATH env) then [Js.to_string (CHROME_PATH env)] else []).
Proof.
  unfold possiblePaths. cbn. now destruct (Js.truthy (CHROME_PATH env)).
Qed.

Lemma possiblePaths_nonempty env c : In c (possiblePaths env) -> c <> "".
Proof.
  rewrite possiblePaths_split. intros [I|I]%in_app_or.
  - cbn in I. intuition (subst; discriminate).
  - destruct (CHROME_PATH env) as [|[|a s]]; cbn in I; intuition (subst; discriminate).
Qed.

(** X15.  The order of the probes.  The candidates are the four built-in
    locations followed by [CHROME_PATH], which is a candidate only when it
    is set and not empty.  The shell commands of a run are the probes of a
    beginning of that list, in order, one per candidate; off Render no
    command is run at all and the answer is Puppeteer's own.  So
    [CHROME_PATH] is looked at only on Render, and only after all four
    built-in locations were probed. *)
Theorem X15_candidates_are_probed_in_order (env : Env) (v : V) :
  possiblePaths env =
    [ "/opt/render/.cache/puppeteer/chrome/linux-*/chrome";
      "/usr/bin/chromium-browser"; "/usr/bin/google-chrome"; "/usr/bin/chrome" ]
    ++ (if Js.truthy (CHROME_PATH env) then [Js.to_string (CHROME_PATH env)] else [])
  /\
  (exists n,
     n <= (if isRender env then length (possiblePaths env) else 0) /\
     map fst (runs (snd (findChromeExecutable env v)))
       = firstn n (map probe (possiblePaths env)))
  /\
  (isRender env = false ->
   fst (fst (findChromeExecutable env v)) = fst (executablePath v)).
Proof.
  split; [apply possiblePaths_split|]. unfold findChromeExecutable.
  destruct (isRender env); cbn [negb].
  - split; [|discriminate].
    unfold bind at 1. unfold console_log_paths at 1.
    destruct (search (possiblePaths env) v) as [[r v'] l] eqn:E. cbn [snd app runs].
    apply search_run in E. destruct r as [p|e].
    + destruct E as (before & c & after & downs & out & -> & -> & F & _).
      exists (length (before ++ [c])). split.
      * rewrite !length_app. cbn. lia.
      * rewrite map_app, (turned_down_probes _ _ F). cbn [map fst].
        replace (before ++ c :: after) with ((before ++ [c]) ++ after)
          by now rewrite <- app_assoc.
        rewrite map_app, <- (length_map probe (before ++ [c])).
        rewrite firstn_app, firstn_all, Nat.sub_diag. cbn [firstn].
        now rewrite app_nil_r, map_app.
    + destruct E as (_ & downs & -> & F). exists (length (possiblePaths env)).
      split; [lia|].
      now rewrite (turned_down_probes _ _ F), <- (length_map probe), firstn_all.
  - split.
    + exists 0. split; [lia|]. unfold puppeteer_executablePath.
      now destruct (executablePath v).
    + intros _. unfold puppeteer_executablePath. now destruct (executablePath v).
Qed.

(** X16.  The first match wins.  On Render, when a path is returned, it is
    the verdict on the last command run: the candidate itself when its [ls]
    succeeded, or the trimmed output of [find] for a pattern with a star.
    Every candidate before it was probed, in order, and turned down, no
    candidate after it was probed, and the path returned is never empty. *)
Theorem X16_first_match_wins (env : Env) (v : V) (p : string) :
  isRender env = true ->
  fst (fst (findChromeExecutable env v)) = Returned p ->
  exists before c after downs out,
    possiblePaths env = before ++ c :: after /\
    runs (snd (findChromeExecutable env v)) = downs ++ [(probe c, Returned out)] /\
    Forall2 turned_down before downs /\
    p = (if includes_star c then Js.trim out else c) /\
    p <> "".
Proof.
  intros R. unfold findChromeExecutable. rewrite R. cbn [negb].
  unfold bind at 1 2. unfold console_log_paths at 1 2.
  destruct (search (possiblePaths env) v) as [[r v'] l] eqn:E. cbn [fst snd app runs].
  intros ->. apply search_run in E as (before & c & after & downs & o & Pp & -> & F & Vd).
  destruct o as [out|e]; [|discriminate].
  exists before, c, after, downs, out. repeat split; auto.
  - unfold verdict in Vd. destruct (includes_star c).
    + destruct (Js.truthy (Js.Str (Js.trim out))); now inversion Vd.
    + now inversion Vd.
  - unfold verdict in Vd. destruct (includes_star c).
    + destruct (Js.truthy (Js.Str (Js.trim out))) eqn:T; [|discriminate].
      injection Vd as <-. intros Z. rewrite Z in T. discriminate.
    + injection Vd as <-. apply (possiblePaths_nonempty env).
      rewrite Pp. apply in_or_app. right. now left.
Qed.

(** X17.  The search gives up only after every candidate.  On Render, a
    failing shell command never escapes the function: when it throws, the
    message is [Could not find Chrome executable in any known location],
    and every candidate, [CHROME_PATH] included when set, was probed once,
    in order, and turned down. *)
Theorem X17_gives_up_after_every_candidate (env : Env) (v : V) (e : string) :
  isRender env = true ->
  fst (fst (findChromeExecutable env v)) = Threw e ->
  e = not_found /\
  Forall2 turned_down (possiblePaths env) (runs (snd (findChromeExecutable env v))) /\
  4 <= length (runs (snd (findChromeExecutable env v))) <= 5.
Proof.
  intros R. unfold findChromeExecutable. rewrite R. cbn [negb].
  unfold bind at 1 2 3 4. unfold console_log_paths at 1 2 3 4.
  destruct (search (possiblePaths env) v) as [[r v'] l] eqn:E. cbn [fst snd app runs].
  intros ->. apply search_run in E as (-> & downs & -> & F).
  split; [reflexivity|]. split; [exact F|].
  rewrite <- (Forall2_length F), possiblePaths_split, length_app.
  destruct (Js.truthy (CHROME_PATH env)); cbn; lia.
Qed.

End Finding.

Lemma X15_witness :
  fst (fst (Finder.findChromeExecutable
              (Finder.mkEnv Js.Undefined (Js.Str "/opt/chrome"))
              (Finder.mkDisk ["/opt/chrome"] "")))
  = Returned "/home/dev/.cache/puppeteer/chrome".
Proof.
  exact (proj2 (proj2 (X15_candidates_are_probed_in_order
                         (Finder.mkEnv Js.Undefined (Js.Str "/opt/chrome"))
                         (Finder.mkDisk ["/opt/chrome"] ""))) eq_refl).
Defined.

Lemma X16_witness :
  exists before c after downs out,
    Finder.possiblePaths (Finder.mkEnv (Js.Str "true") (Js.Str "/opt/chrome"))
      = before ++ c :: after /\
    Finder.runs (snd (Finder.findChromeExecutable
                        (Finder.mkEnv (Js.Str "true") (Js.Str "/opt/chrome"))
                        (Finder.mkDisk ["/usr/bin/google-chrome"; "/opt/chrome"] "")))
      = downs ++ [(Finder.probe c, Returned out)] /\
    Forall2 Finder.turned_down before downs /\
    "/usr/bin/google-chrome" = (if Finder.includes_star c then Js.trim out else c) /\
    "/usr/bin/google-chrome" <> "".
Proof.
  apply X16_first_match_wins; reflexivity.
Defined.

Lemma X17_witness :
  "Could not find Chrome executable in any known location" = Finder.not_found /\
  Forall2 Finder.turned_down
    (Finder.possiblePaths (Finder.mkEnv (Js.Str "true") Js.Undefined))
    (Finder.runs (snd (Finder.findChromeExecutable
                         (Finder.mkEnv (Js.Str "true") Js.Undefined)
                         (Finder.mkDisk [] "  ")))) /\
  4 <= length (Finder.runs (snd (Finder.findChromeExecutable
                                   (Finder.mkEnv (Js.Str "true") Js.Undefined)
                                   (Finder.mkDisk [] "  ")))) <= 5.
Proof.
  apply X17_gives_up_after_every_candidate; reflexivity.
Defined.

(* ================================================================== *)
(** ** The Firefox revision *)
(* ================================================================== *)

(** X18.  The Firefox revision never reaches the browser.  Its
    [getBrowserConfig] reads [isRender], which the file does not bind, so
    for every request and every browser the handler answers 500 with
    details [isRender is not defined], and makes no call to Puppeteer at
    all: nothing is launched and nothing has to be closed. *)
Theorem X18_firefox_revision_always_fails
    {W : Type} `{Puppeteer W} (q : Query) (w : W) :
  Fx.scrape_options q w =
  (Fx.Json500 "Scraping failed" "isRender is not defined", w,
   [ConsoleError "Scraping error:" "isRender is not defined"]).
Proof. reflexivity. Qed.
